(** * ChatInput: the dataset upload state machine

    A shallow embedding of the dataset part of
    [auto-analyst-frontend/components/chat/ChatInput.tsx]: the React state of
    the component, the browser objects it touches (the [lastUploadedFile]
    slot of localStorage, the hidden file input, pending timeouts), its event
    handlers and its [useEffect] hooks.

    Conventions of the embedding.
    - A handler is a function on [State].  What a handler reads from the
      variables of the render it was created in ([fileUpload],
      [datasetDescription], [sessionId], [showPreview],
      [isGeneratingDescription]) comes from a [Closure]; what it reads from
      refs and from localStorage, and every functional update
      [setX(prev => ...)], comes from the current state.
    - An [await] of a network call ends a segment.  The answer of the backend
      is an argument of the segment that follows.  Between two segments React
      renders and runs the effects whose dependencies changed ([render]).
    - Strings are byte strings; [toLowerCase] is modelled on ASCII letters,
      which is all the suffix tests of the source can observe. *)

From Stdlib Require Import Bool List String Ascii ZArith Lia.
Import ListNotations.
Open Scope string_scope.

Set Implicit Arguments.

(** ** Strings as JavaScript uses them here *)

Module Js.

Definition lowerAscii (c : ascii) : ascii :=
  let n := nat_of_ascii c in
  if andb (65 <=? n)%nat (n <=? 90)%nat then ascii_of_nat (n + 32) else c.

Fixpoint toLowerCase (s : string) : string :=
  match s with
  | EmptyString => EmptyString
  | String c r => String (lowerAscii c) (toLowerCase r)
  end.

(** [s.endsWith(suffix)]: some tail of [s] is [suffix]. *)
Fixpoint endsWith (s suffix : string) : bool :=
  if String.eqb s suffix then true
  else match s with
       | EmptyString => false
       | String _ r => endsWith r suffix
       end.

(** [s.replace(pat, rep)] with a string pattern: the first occurrence. *)
Fixpoint replaceFirst (pat rep s : string) : string :=
  if prefix pat s then rep ++ substring (String.length pat) (String.length s - String.length pat) s
  else match s with
       | EmptyString => EmptyString
       | String c r => String c (replaceFirst pat rep r)
       end.

(** [s.replace(/\.(xlsx|xls)$/i, '')]. *)
Definition stripExcelExtension (s : string) : string :=
  let l := toLowerCase s in
  if endsWith l ".xlsx" then substring 0 (String.length s - 5) s
  else if endsWith l ".xls" then substring 0 (String.length s - 4) s
  else s.

(** Truthiness of a string, and of a possibly missing string. *)
Definition truthy (s : string) : bool := negb (String.eqb s "").

Definition truthyOpt (o : option string) : bool :=
  match o with Some s => truthy s | None => false end.

(** [a || b] on strings. *)
Definition orElse (a b : string) : string := if truthy a then a else b.

End Js.

(** ** Data model *)

(** The part of a browser [File] the component looks at. *)
Record File := mkFile {
  fname : string;
  ftype : string;
  fsize : N;
  flastModified : Z
}.

Inductive Status := Loading | Success | Failed.

(** [interface FileUpload]; [Failed] is the status ['error']. *)
Record FileUpload := mkFileUpload {
  file : File;
  status : Status;
  errorMessage : option string;
  isExcel : option bool;
  sheets : option (list string);
  selectedSheet : option string;
  dataset_upload_id : option Z
}.

Record FilePreview := mkFilePreview {
  headers : list string;
  rows : list (list string);
  pname : string;
  pdescription : string
}.

Record DatasetDescription := mkDescription {
  name : string;
  description : string
}.

Record Notification := mkNotification {
  message : string;
  details : option string
}.

(** What [JSON.stringify] puts under [lastUploadedFile].  The persist effect
    writes the first three fields only; the commit writes all five. *)
Record LocalDatasetRecord := mkRecord {
  rname : string;
  rtype : string;
  rlastModified : Z;
  risExcel : option bool;
  rselectedSheet : option string
}.

(** The content of the slot: a record, or a non-empty string on which the
    [JSON.parse] block of a reader throws. *)
Inductive Stored := Rec (r : LocalDatasetRecord) | Corrupt.

Definition statusEqb (a b : Status) : bool :=
  match a, b with
  | Loading, Loading | Success, Success | Failed, Failed => true
  | _, _ => false
  end.

Definition optEqb {A} (eqb : A -> A -> bool) (a b : option A) : bool :=
  match a, b with
  | Some x, Some y => eqb x y
  | None, None => true
  | _, _ => false
  end.

Definition recordEqb (a b : LocalDatasetRecord) : bool :=
  String.eqb (rname a) (rname b) && String.eqb (rtype a) (rtype b)
  && Z.eqb (rlastModified a) (rlastModified b)
  && optEqb Bool.eqb (risExcel a) (risExcel b)
  && optEqb String.eqb (rselectedSheet a) (rselectedSheet b).

Definition storedEqb (a b : Stored) : bool :=
  match a, b with
  | Rec x, Rec y => recordEqb x y
  | Corrupt, Corrupt => true
  | _, _ => false
  end.

(** ** The type check of handleFileSelect (lines 585-591) *)

Definition isCSVByExtension (f : File) : bool :=
  Js.endsWith (Js.toLowerCase (fname f)) ".csv".

Definition isCSVByType (f : File) : bool :=
  String.eqb (ftype f) "text/csv" || String.eqb (ftype f) "application/csv".

Definition isExcelByExtension (f : File) : bool :=
  Js.endsWith (Js.toLowerCase (fname f)) ".xlsx"
  || Js.endsWith (Js.toLowerCase (fname f)) ".xls".

Definition isExcelByType (f : File) : bool :=
  String.eqb (ftype f) "application/vnd.openxmlformats-officedocument.spreadsheetml.sheet"
  || String.eqb (ftype f) "application/vnd.ms-excel".

(** The guard of the rejecting branch. *)
Definition rejected (f : File) : bool :=
  negb (isCSVByExtension f) && negb (isExcelByExtension f)
  && (negb (isCSVByType f) && negb (isExcelByType f) && negb (String.eqb (ftype f) "")).

(** ** Backend answers *)

(** An entry of a validation error list: [err.msg], [err.message] and
    [String(err)]. *)
Record DetailItem := mkDetailItem {
  imsg : string;
  imessage : string;
  iasString : string
}.

(** [error.response.data.detail], when it is truthy. *)
Inductive Detail :=
| DetailString (s : string)
| DetailList (items : list DetailItem)
| DetailObject (entries : list (string * string))
| DetailOther (json : string).

Record ErrorResponse := mkErrorResponse {
  httpStatus : nat;
  detail : option Detail;
  dataMessage : string;
  dataError : string
}.

Inductive Error :=
| AxiosError (response : option ErrorResponse) (emessage : string)
| PlainError (emessage : string)
| NotAnError.

Definition detailTruthy (d : option Detail) : bool :=
  match d with
  | Some (DetailString s) => Js.truthy s
  | Some _ => true
  | None => false
  end.

Definition formatDetail (d : Detail) : string :=
  match d with
  | DetailString s => s
  | DetailList items =>
      String.concat ". "
        (map (fun i => Js.orElse (imsg i) (Js.orElse (imessage i) (iasString i))) items)
  | DetailObject entries =>
      String.concat ". " (map (fun kv => fst kv ++ ": " ++ snd kv) entries)
  | DetailOther json => json
  end.

Definition getErrorMessage (error : Error) : string :=
  match error with
  | AxiosError (Some r) m =>
      if (httpStatus r =? 413)%nat then "File too large. Please upload a smaller file."
      else if (httpStatus r =? 415)%nat then "Invalid file type. Please upload a CSV file."
      else if (httpStatus r =? 400)%nat && detailTruthy (detail r) then
        match detail r with Some d => formatDetail d | None => m end
      else if Js.truthy (dataMessage r) then dataMessage r
      else if Js.truthy (dataError r) then dataError r
      else m
  | AxiosError None m => m
  | PlainError m => m
  | NotAnError => "Upload failed. Please try again."
  end.

Inductive Resp (A : Type) :=
| Ok (a : A)
| Err (e : Error).
Arguments Ok {A} a.
Arguments Err {A} e.

(** Answer of [upload_dataframe], [upload_excel] and of [reset-session] with
    a body. *)
Record UploadData := mkUploadData {
  u_status : nat;
  u_session_id : option string;
  u_dataset_upload_id : option Z
}.

Record PreviewData := mkPreviewData {
  p_headers : list string;
  p_rows : list (list string);
  p_name : string;
  p_description : string
}.

Record SessionInfo := mkSessionInfo {
  is_custom_dataset : bool;
  dataset_name : string;
  dataset_description : string
}.

Record DefaultData := mkDefaultData {
  d_headers : list string;
  d_rows : list (list string);
  d_name : string;
  d_description : string;
  d_session_id : option string
}.

(** ** Closures, timers, and the logs of what leaves the component *)

(** The variables of a render that the handlers created in it close over. *)
Record Closure := mkClosure {
  c_fileUpload : option FileUpload;
  c_datasetDescription : DatasetDescription;
  c_sessionId : option string;
  c_showPreview : bool;
  c_isGeneratingDescription : bool
}.

(** The callbacks handed to [setTimeout]. *)
Inductive TimerAction :=
| ClearUploadAndNotice   (* setFileUpload(null); removeItem; setErrorNotification(null) *)
| ClearNotice            (* setErrorNotification(null) *)
| HideUploadSuccess      (* setUploadSuccess(false) *)
| ClickFileInput         (* fileInputRef.current?.click() *)
| AutoGenerate (c : Closure).  (* generateDatasetDescription() *)

Record Timer := mkTimer {
  tid : nat;
  delay : nat;
  action : TimerAction
}.

Inductive Call :=
| ResetSession (sid : option string)
| ResetSessionUpdate (sid : option string) (d : DatasetDescription)
| ExcelSheets (f : File)
| UploadDataframe (f : File) (nm descr : string)
| UploadExcel (f : File) (nm descr : string) (sheet : option string)
| PreviewCsv (sid : option string)
| GetSessionInfo (sid : option string)
| GetDefaultDataset (sid : option string)
| CreateDatasetDescription (sid : option string) (existingDescription : bool).

Inductive Alert :=
| AlertSelectAgain       (* "Please select your dataset file again to upload it" *)
| AlertUploadFailed (e : Error)
| AlertProcessFailed     (* "Failed to process dataset. Please try again." *)
| AlertPreviewFailed.

(** ** The state of the component and of the browser around it

    [upload] is what [fileUpload] holds, together with the identity of the
    object ([None] for [null]); every [setFileUpload] with an object takes a
    fresh identity.  [effectsSeen] is the identity the effects with dependency
    [[fileUpload]] last ran for.  [fileInputRef] is [None] while the input
    element is not mounted, otherwise the file it holds.  [timers] are the
    pending timeouts.  [calls], [alerts] and [console] record the requests
    sent, the alerts shown and the errors logged, newest first. *)

Record State := mkState {
  upload : option (nat * FileUpload);
  effectsSeen : option (option nat);
  nextId : nat;
  showPreview : bool;
  filePreview : option FilePreview;
  datasetDescription : DatasetDescription;
  uploadSuccess : bool;
  sessionId : option string;
  showDatasetResetPopup : bool;
  datasetMismatch : bool;
  errorNotification : option Notification;
  isGeneratingDescription : bool;
  showSheetSelector : bool;
  errorTimeoutRef : option nat;
  lastUploadedFileRef : option Stored;
  fileInputRef : option (option File);
  localStorage : option Stored;
  timers : list Timer;
  nextTimer : nat;
  calls : list Call;
  alerts : list Alert;
  console : list string
}.

Definition with_upload (v : option (nat * FileUpload)) (s : State) : State :=
  mkState
    v (effectsSeen s) (nextId s) (showPreview s) (filePreview s)
    (datasetDescription s) (uploadSuccess s) (sessionId s)
    (showDatasetResetPopup s) (datasetMismatch s) (errorNotification s)
    (isGeneratingDescription s) (showSheetSelector s) (errorTimeoutRef s)
    (lastUploadedFileRef s) (fileInputRef s) (localStorage s) (timers s)
    (nextTimer s) (calls s) (alerts s) (console s).

Definition with_effectsSeen (v : option (option nat)) (s : State) : State :=
  mkState
    (upload s) v (nextId s) (showPreview s) (filePreview s)
    (datasetDescription s) (uploadSuccess s) (sessionId s)
    (showDatasetResetPopup s) (datasetMismatch s) (errorNotification s)
    (isGeneratingDescription s) (showSheetSelector s) (errorTimeoutRef s)
    (lastUploadedFileRef s) (fileInputRef s) (localStorage s) (timers s)
    (nextTimer s) (calls s) (alerts s) (console s).

Definition with_nextId (v : nat) (s : State) : State :=
  mkState
    (upload s) (effectsSeen s) v (showPreview s) (filePreview s)
    (datasetDescription s) (uploadSuccess s) (sessionId s)
    (showDatasetResetPopup s) (datasetMismatch s) (errorNotification s)
    (isGeneratingDescription s) (showSheetSelector s) (errorTimeoutRef s)
    (lastUploadedFileRef s) (fileInputRef s) (localStorage s) (timers s)
    (nextTimer s) (calls s) (alerts s) (console s).

Definition with_showPreview (v : bool) (s : State) : State :=
  mkState
    (upload s) (effectsSeen s) (nextId s) v (filePreview s)
    (datasetDescription s) (uploadSuccess s) (sessionId s)
    (showDatasetResetPopup s) (datasetMismatch s) (errorNotification s)
    (isGeneratingDescription s) (showSheetSelector s) (errorTimeoutRef s)
    (lastUploadedFileRef s) (fileInputRef s) (localStorage s) (timers s)
    (nextTimer s) (calls s) (alerts s) (console s).

Definition with_filePreview (v : option FilePreview) (s : State) : State :=
  mkState
    (upload s) (effectsSeen s) (nextId s) (showPreview s) v
    (datasetDescription s) (uploadSuccess s) (sessionId s)
    (showDatasetResetPopup s) (datasetMismatch s) (errorNotification s)
    (isGeneratingDescription s) (showSheetSelector s) (errorTimeoutRef s)
    (lastUploadedFileRef s) (fileInputRef s) (localStorage s) (timers s)
    (nextTimer s) (calls s) (alerts s) (console s).

Definition with_datasetDescription (v : DatasetDescription) (s : State) : State :=
  mkState
    (upload s) (effectsSeen s) (nextId s) (showPreview s) (filePreview s) v
    (uploadSuccess s) (sessionId s) (showDatasetResetPopup s)
    (datasetMismatch s) (errorNotification s) (isGeneratingDescription s)
    (showSheetSelector s) (errorTimeoutRef s) (lastUploadedFileRef s)
    (fileInputRef s) (localStorage s) (timers s) (nextTimer s) (calls s)
    (alerts s) (console s).

Definition with_uploadSuccess (v : bool) (s : State) : State :=
  mkState
    (upload s) (effectsSeen s) (nextId s) (showPreview s) (filePreview s)
    (datasetDescription s) v (sessionId s) (showDatasetResetPopup s)
    (datasetMismatch s) (errorNotification s) (isGeneratingDescription s)
    (showSheetSelector s) (errorTimeoutRef s) (lastUploadedFileRef s)
    (fileInputRef s) (localStorage s) (timers s) (nextTimer s) (calls s)
    (alerts s) (console s).

Definition with_sessionId (v : option string) (s : State) : State :=
  mkState
    (upload s) (effectsSeen s) (nextId s) (showPreview s) (filePreview s)
    (datasetDescription s) (uploadSuccess s) v (showDatasetResetPopup s)
    (datasetMismatch s) (errorNotification s) (isGeneratingDescription s)
    (showSheetSelector s) (errorTimeoutRef s) (lastUploadedFileRef s)
    (fileInputRef s) (localStorage s) (timers s) (nextTimer s) (calls s)
    (alerts s) (console s).

Definition with_showDatasetResetPopup (v : bool) (s : State) : State :=
  mkState
    (upload s) (effectsSeen s) (nextId s) (showPreview s) (filePreview s)
    (datasetDescription s) (uploadSuccess s) (sessionId s) v
    (datasetMismatch s) (errorNotification s) (isGeneratingDescription s)
    (showSheetSelector s) (errorTimeoutRef s) (lastUploadedFileRef s)
    (fileInputRef s) (localStorage s) (timers s) (nextTimer s) (calls s)
    (alerts s) (console s).

Definition with_datasetMismatch (v : bool) (s : State) : State :=
  mkState
    (upload s) (effectsSeen s) (nextId s) (showPreview s) (filePreview s)
    (datasetDescription s) (uploadSuccess s) (sessionId s)
    (showDatasetResetPopup s) v (errorNotification s)
    (isGeneratingDescription s) (showSheetSelector s) (errorTimeoutRef s)
    (lastUploadedFileRef s) (fileInputRef s) (localStorage s) (timers s)
    (nextTimer s) (calls s) (alerts s) (console s).

Definition with_errorNotification (v : option Notification) (s : State) : State :=
  mkState
    (upload s) (effectsSeen s) (nextId s) (showPreview s) (filePreview s)
    (datasetDescription s) (uploadSuccess s) (sessionId s)
    (showDatasetResetPopup s) (datasetMismatch s) v
    (isGeneratingDescription s) (showSheetSelector s) (errorTimeoutRef s)
    (lastUploadedFileRef s) (fileInputRef s) (localStorage s) (timers s)
    (nextTimer s) (calls s) (alerts s) (console s).

Definition with_isGeneratingDescription (v : bool) (s : State) : State :=
  mkState
    (upload s) (effectsSeen s) (nextId s) (showPreview s) (filePreview s)
    (datasetDescription s) (uploadSuccess s) (sessionId s)
    (showDatasetResetPopup s) (datasetMismatch s) (errorNotification s) v
    (showSheetSelector s) (errorTimeoutRef s) (lastUploadedFileRef s)
    (fileInputRef s) (localStorage s) (timers s) (nextTimer s) (calls s)
    (alerts s) (console s).

Definition with_showSheetSelector (v : bool) (s : State) : State :=
  mkState
    (upload s) (effectsSeen s) (nextId s) (showPreview s) (filePreview s)
    (datasetDescription s) (uploadSuccess s) (sessionId s)
    (showDatasetResetPopup s) (datasetMismatch s) (errorNotification s)
    (isGeneratingDescription s) v (errorTimeoutRef s) (lastUploadedFileRef s)
    (fileInputRef s) (localStorage s) (timers s) (nextTimer s) (calls s)
    (alerts s) (console s).

Definition with_errorTimeoutRef (v : option nat) (s : State) : State :=
  mkState
    (upload s) (effectsSeen s) (nextId s) (showPreview s) (filePreview s)
    (datasetDescription s) (uploadSuccess s) (sessionId s)
    (showDatasetResetPopup s) (datasetMismatch s) (errorNotification s)
    (isGeneratingDescription s) (showSheetSelector s) v
    (lastUploadedFileRef s) (fileInputRef s) (localStorage s) (timers s)
    (nextTimer s) (calls s) (alerts s) (console s).

Definition with_lastUploadedFileRef (v : option Stored) (s : State) : State :=
  mkState
    (upload s) (effectsSeen s) (nextId s) (showPreview s) (filePreview s)
    (datasetDescription s) (uploadSuccess s) (sessionId s)
    (showDatasetResetPopup s) (datasetMismatch s) (errorNotification s)
    (isGeneratingDescription s) (showSheetSelector s) (errorTimeoutRef s) v
    (fileInputRef s) (localStorage s) (timers s) (nextTimer s) (calls s)
    (alerts s) (console s).

Definition with_fileInputRef (v : option (option File)) (s : State) : State :=
  mkState
    (upload s) (effectsSeen s) (nextId s) (showPreview s) (filePreview s)
    (datasetDescription s) (uploadSuccess s) (sessionId s)
    (showDatasetResetPopup s) (datasetMismatch s) (errorNotification s)
    (isGeneratingDescription s) (showSheetSelector s) (errorTimeoutRef s)
    (lastUploadedFileRef s) v (localStorage s) (timers s) (nextTimer s)
    (calls s) (alerts s) (console s).

Definition with_localStorage (v : option Stored) (s : State) : State :=
  mkState
    (upload s) (effectsSeen s) (nextId s) (showPreview s) (filePreview s)
    (datasetDescription s) (uploadSuccess s) (sessionId s)
    (showDatasetResetPopup s) (datasetMismatch s) (errorNotification s)
    (isGeneratingDescription s) (showSheetSelector s) (errorTimeoutRef s)
    (lastUploadedFileRef s) (fileInputRef s) v (timers s) (nextTimer s)
    (calls s) (alerts s) (console s).

Definition with_timers (v : list Timer) (s : State) : State :=
  mkState
    (upload s) (effectsSeen s) (nextId s) (showPreview s) (filePreview s)
    (datasetDescription s) (uploadSuccess s) (sessionId s)
    (showDatasetResetPopup s) (datasetMismatch s) (errorNotification s)
    (isGeneratingDescription s) (showSheetSelector s) (errorTimeoutRef s)
    (lastUploadedFileRef s) (fileInputRef s) (localStorage s) v (nextTimer s)
    (calls s) (alerts s) (console s).

Definition with_nextTimer (v : nat) (s : State) : State :=
  mkState
    (upload s) (effectsSeen s) (nextId s) (showPreview s) (filePreview s)
    (datasetDescription s) (uploadSuccess s) (sessionId s)
    (showDatasetResetPopup s) (datasetMismatch s) (errorNotification s)
    (isGeneratingDescription s) (showSheetSelector s) (errorTimeoutRef s)
    (lastUploadedFileRef s) (fileInputRef s) (localStorage s) (timers s) v
    (calls s) (alerts s) (console s).

Definition with_calls (v : list Call) (s : State) : State :=
  mkState
    (upload s) (effectsSeen s) (nextId s) (showPreview s) (filePreview s)
    (datasetDescription s) (uploadSuccess s) (sessionId s)
    (showDatasetResetPopup s) (datasetMismatch s) (errorNotification s)
    (isGeneratingDescription s) (showSheetSelector s) (errorTimeoutRef s)
    (lastUploadedFileRef s) (fileInputRef s) (localStorage s) (timers s)
    (nextTimer s) v (alerts s) (console s).

Definition with_alerts (v : list Alert) (s : State) : State :=
  mkState
    (upload s) (effectsSeen s) (nextId s) (showPreview s) (filePreview s)
    (datasetDescription s) (uploadSuccess s) (sessionId s)
    (showDatasetResetPopup s) (datasetMismatch s) (errorNotification s)
    (isGeneratingDescription s) (showSheetSelector s) (errorTimeoutRef s)
    (lastUploadedFileRef s) (fileInputRef s) (localStorage s) (timers s)
    (nextTimer s) (calls s) v (console s).

Definition with_console (v : list string) (s : State) : State :=
  mkState
    (upload s) (effectsSeen s) (nextId s) (showPreview s) (filePreview s)
    (datasetDescription s) (uploadSuccess s) (sessionId s)
    (showDatasetResetPopup s) (datasetMismatch s) (errorNotification s)
    (isGeneratingDescription s) (showSheetSelector s) (errorTimeoutRef s)
    (lastUploadedFileRef s) (fileInputRef s) (localStorage s) (timers s)
    (nextTimer s) (calls s) (alerts s) v.

(** ** React setters, refs, storage, timers *)

Definition fileUpload (s : State) : option FileUpload := option_map snd (upload s).

Definition fileUploadId (s : State) : option nat := option_map fst (upload s).

Definition setFileUpload (v : option FileUpload) (s : State) : State :=
  match v with
  | Some u => with_nextId (S (nextId s)) (with_upload (Some (nextId s, u)) s)
  | None => with_upload None s
  end.

(** [setFileUpload(prev => prev ? f(prev) : null)]: a fresh object when
    there was one, [null] staying [null] otherwise.  (Written field by field,
    so that every projection of the result computes.) *)
Definition updFileUpload (f : FileUpload -> FileUpload) (s : State) : State :=
  with_nextId (match upload s with Some _ => S (nextId s) | None => nextId s end)
    (with_upload
       (match upload s with Some (_, u) => Some (nextId s, f u) | None => None end) s).

Definition setShowPreview := with_showPreview.
Definition setFilePreview (p : FilePreview) := with_filePreview (Some p).
Definition setDatasetDescription := with_datasetDescription.
Definition setUploadSuccess := with_uploadSuccess.
Definition setShowDatasetResetPopup := with_showDatasetResetPopup.
Definition setDatasetMismatch := with_datasetMismatch.
Definition setErrorNotification := with_errorNotification.
Definition setIsGeneratingDescription := with_isGeneratingDescription.
Definition setShowSheetSelector := with_showSheetSelector.

(** [setSessionId(id)], called only under [if (id)]. *)
Definition setSessionIdIfTruthy (id : option string) (s : State) : State :=
  with_sessionId (if Js.truthyOpt id then id else sessionId s) s.

(** [setDatasetDescription(prev => ({...prev, description: d}))]. *)
Definition updDescription (f : string -> string) (s : State) : State :=
  with_datasetDescription
    (mkDescription (name (datasetDescription s)) (f (description (datasetDescription s)))) s.

Definition updName (n : string) (s : State) : State :=
  with_datasetDescription (mkDescription n (description (datasetDescription s))) s.

Definition removeItem := with_localStorage None.
Definition setItem (v : Stored) := with_localStorage (Some v).

Definition send (c : Call) (s : State) : State := with_calls (c :: calls s) s.
Definition alert (a : Alert) (s : State) : State := with_alerts (a :: alerts s) s.
Definition consoleError (m : string) (s : State) : State := with_console (m :: console s) s.

(** [fileInputRef.current.value = ""] under [if (fileInputRef.current)]. *)
Definition clearFileInput (s : State) : State :=
  with_fileInputRef (match fileInputRef s with Some _ => Some None | None => None end) s.

(** [setTimeout(cb, ms)]: its identifier, and the state with it pending. *)
Definition setTimeout (a : TimerAction) (ms : nat) (s : State) : State :=
  with_nextTimer (S (nextTimer s))
    (with_timers (mkTimer (nextTimer s) ms a :: timers s) s).

(** [errorTimeoutRef.current = setTimeout(cb, ms)]. *)
Definition setErrorTimeout (a : TimerAction) (ms : nat) (s : State) : State :=
  with_errorTimeoutRef (Some (nextTimer s)) (setTimeout a ms s).

Definition withoutTimer (id : nat) (l : list Timer) : list Timer :=
  filter (fun t => negb (tid t =? id)%nat) l.

Definition clearTimeout (id : nat) (s : State) : State :=
  with_timers (withoutTimer id (timers s)) s.

(** [if (errorTimeoutRef.current) clearTimeout(errorTimeoutRef.current)]. *)
Definition clearErrorTimeout (s : State) : State :=
  with_timers
    (match errorTimeoutRef s with
     | Some id => withoutTimer id (timers s)
     | None => timers s
     end) s.

Definition closureOf (s : State) : Closure :=
  mkClosure (fileUpload s) (datasetDescription s) (sessionId s) (showPreview s)
    (isGeneratingDescription s).

(** Forward application, to read a handler top to bottom. *)
Notation "s |> f" := (f s) (at level 45, left associativity, only parsing).

(** ** The two effects that depend on [fileUpload], and rendering *)

(** [new File] takes [lastModified] as a WebIDL [long long]: an integer is
    reduced modulo 2^64 into the signed range.  The [lastModified] of a
    [File] is in that range, and so is that of every record the component
    writes. *)
Definition toLongLong (z : Z) : Z := ((z + 2 ^ 63) mod 2 ^ 64 - 2 ^ 63)%Z.

Definition inLongLong (z : Z) : Prop := (- 2 ^ 63 <= z < 2 ^ 63)%Z.

(** [new File([""], info.name, {type: info.type, lastModified: info.lastModified})],
    on a record whose [lastModified] is in the range of a [long long], where
    the conversion keeps it as it is ([mockFile_exact]).  What is said of a
    restored file beyond its being restored is said of such records. *)
Definition mockFile (r : LocalDatasetRecord) : File :=
  mkFile (rname r) (rtype r) 0 (rlastModified r).

Definition freshUpload (f : File) (st : Status) : FileUpload :=
  mkFileUpload f st None None None None None.

(** The object the persist effect serialises. *)
Definition fileInfo (fu : FileUpload) : LocalDatasetRecord :=
  mkRecord (fname (file fu)) (ftype (file fu)) (flastModified (file fu)) None None.

(** Lines 435-463: restore the chip from the stored record when no upload is
    shown.  [fu] is the [fileUpload] of the render the effect belongs to. *)
Definition restoreEffect (fu : option FileUpload) (s : State) : State :=
  match fu with
  | Some _ => s
  | None =>
      match localStorage s with
      | Some saved =>
          if negb (optEqb storedEqb (lastUploadedFileRef s) (Some saved)) then
            let s := with_lastUploadedFileRef (Some saved) s in
            match saved with
            | Rec r => s |> setFileUpload (Some (freshUpload (mockFile r) Success))
            | Corrupt => s |> consoleError "Error restoring file info:" |> removeItem
            end
          else s
      | None =>
          match lastUploadedFileRef s with
          | Some _ => s |> with_lastUploadedFileRef None |> setFileUpload None
          | None => s
          end
      end
  end.

(** Lines 535-551: store the fingerprint of a successful upload. *)
Definition persistEffect (fu : option FileUpload) (s : State) : State :=
  match fu with
  | Some u =>
      match status u with
      | Success =>
          s |> setItem (Rec (fileInfo u))
            |> with_lastUploadedFileRef (Some (Rec (fileInfo u)))
      | _ => s
      end
  | None => s
  end.

Definition seenCurrent (s : State) : bool :=
  optEqb (optEqb Nat.eqb) (effectsSeen s) (Some (fileUploadId s)).

(** One commit: the effects run when the identity of [fileUpload] is not the
    one they last ran for, both with the [fileUpload] of that render. *)
Definition commitEffects (s : State) : State :=
  if seenCurrent s then s
  else
    s |> with_effectsSeen (Some (fileUploadId s))
      |> restoreEffect (fileUpload s)
      |> persistEffect (fileUpload s).

(** Rendering until nothing is scheduled: the restore effect may set
    [fileUpload] once, which asks for a second commit ([render_stable]). *)
Definition render (s : State) : State := commitEffects (commitEffects s).

(** ** Updates of the [FileUpload] object *)

Definition failWith (m : string) (p : FileUpload) : FileUpload :=
  mkFileUpload (file p) Failed (Some m) (isExcel p) (sheets p) (selectedSheet p)
    (dataset_upload_id p).

Definition withStatus (st : Status) (p : FileUpload) : FileUpload :=
  mkFileUpload (file p) st (errorMessage p) (isExcel p) (sheets p) (selectedSheet p)
    (dataset_upload_id p).

Definition withUploadId (id : option Z) (p : FileUpload) : FileUpload :=
  mkFileUpload (file p) (status p) (errorMessage p) (isExcel p) (sheets p)
    (selectedSheet p) id.

Definition withSelectedSheet (sh : option string) (p : FileUpload) : FileUpload :=
  mkFileUpload (file p) (status p) (errorMessage p) (isExcel p) (sheets p) sh
    (dataset_upload_id p).

Definition withSheets (l : list string) (p : FileUpload) : FileUpload :=
  mkFileUpload (file p) Success (errorMessage p) (isExcel p) (Some l) (hd_error l)
    (dataset_upload_id p).

Definition idTruthy (id : option Z) : bool :=
  match id with Some n => negb (n =? 0)%Z | None => false end.

(** [a || b] on optional strings, as used for the session id. *)
Definition orElseOpt (a b : option string) : option string :=
  if Js.truthyOpt a then a else b.

(** [...(sid && {'X-Session-ID': sid})]: the header that is sent. *)
Definition header (sid : option string) : option string :=
  if Js.truthyOpt sid then sid else None.

Definition guidance : string :=
  "Please describe what this dataset contains and its purpose".

Definition generating : string := "Generating description...".

(** ** handleFilePreview (lines 700-880) *)

Section FilePreviewFlow.

Variable c : Closure.
Variable f : File.
Variable isNewDataset : bool.

Definition savedDescription : string := description (c_datasetDescription c).

Definition isCustomDescription : bool :=
  negb (String.eqb savedDescription "Preview dataset")
  && negb (String.eqb savedDescription "").

Definition useGuidancePlaceholder : bool := isNewDataset || negb isCustomDescription.

Definition existingDescription : string :=
  if useGuidancePlaceholder then guidance else savedDescription.

Definition tempName : string := Js.replaceFirst ".csv" "" (fname f).

Definition descriptionToUse (served : string) : string :=
  if isNewDataset then guidance
  else if isCustomDescription then savedDescription
  else Js.orElse served existingDescription.

Definition looksCsv : bool :=
  String.eqb (ftype f) "text/csv" || Js.endsWith (Js.toLowerCase (fname f)) ".csv".

(** One [catch] block of the preview functions. *)
Definition previewCatch (title : string) (e : Error) (s : State) : State :=
  s |> setErrorNotification (Some (mkNotification title (Some (getErrorMessage e))))
    |> updFileUpload (failWith (getErrorMessage e))
    |> setErrorTimeout ClearNotice 5000.

(** The inner [catch] rethrows into the outer one. *)
Definition filePreviewFailed (e : Error) (s : State) : State :=
  s |> consoleError "Upload error details:"
    |> previewCatch "File preview failed" e
    |> consoleError "Failed to preview file:"
    |> previewCatch "File preview failed" e.

Definition sendUpload (s : State) : State :=
  s |> send (UploadDataframe f tempName existingDescription).

(** Up to the first [await]. *)
Definition handleFilePreview_begin (s : State) : State :=
  let s := s |> setErrorNotification None |> clearErrorTimeout in
  if looksCsv then
    if Js.truthyOpt (c_sessionId c) then s |> send (ResetSession (c_sessionId c))
    else sendUpload s
  else
    s |> setErrorNotification
           (Some (mkNotification "Invalid file format"
              (Some "Please upload a CSV file. Other file formats are not supported.")))
      |> updFileUpload (failWith "Please upload a CSV file only")
      |> setErrorTimeout ClearNotice 5000.

Definition handleFilePreview_afterReset (r : Resp unit) (s : State) : State :=
  match r with
  | Ok _ => sendUpload s
  | Err _ => s |> consoleError "Failed to reset session before upload:" |> sendUpload
  end.

Definition handleFilePreview_afterUpload (r : Resp UploadData) (s : State) : State :=
  match r with
  | Ok u =>
      (if idTruthy (u_dataset_upload_id u)
       then updFileUpload (withUploadId (u_dataset_upload_id u)) s else s)
      |> send (PreviewCsv (header (orElseOpt (u_session_id u) (c_sessionId c))))
  | Err e => filePreviewFailed e s
  end.

(** What both preview functions do with the answer of [preview-csv];
    [tmp] is the provisional name they sent with the upload. *)
Definition showPreviewOf (tmp : string) (p : PreviewData) (u : UploadData)
    (s : State) : State :=
  let d := descriptionToUse (p_description p) in
  let n := Js.orElse (p_name p) tmp in
  let s :=
    s |> setFilePreview (mkFilePreview (p_headers p) (p_rows p) n d)
      |> setDatasetDescription (mkDescription n d)
      |> setShowPreview true
      |> setSessionIdIfTruthy (u_session_id u) in
  if isNewDataset && (String.eqb d guidance || negb (Js.truthy d))
  then setTimeout (AutoGenerate c) 300 s else s.

Definition handleFilePreview_afterPreview
    (u : UploadData) (r : Resp PreviewData) (s : State) : State :=
  match r with
  | Ok p => showPreviewOf tempName p u s
  | Err e => filePreviewFailed e s
  end.

(** The whole call, with the answers of the backend as arguments.  It never
    rejects: the outer [catch] returns normally. *)
Definition handleFilePreview
    (rReset : Resp unit) (rUpload : Resp UploadData) (rPreview : Resp PreviewData)
    (s : State) : State :=
  if looksCsv then
    let s1 := handleFilePreview_begin s in
    let s2 := if Js.truthyOpt (c_sessionId c)
              then handleFilePreview_afterReset rReset (render s1) else s1 in
    let s3 := handleFilePreview_afterUpload rUpload (render s2) in
    match rUpload with
    | Ok u => handleFilePreview_afterPreview u rPreview (render s3)
    | Err _ => s3
    end
  else handleFilePreview_begin s.

End FilePreviewFlow.

(** ** handleFileSelect (lines 575-698) *)

Section FileSelect.

Variable c : Closure.
Variable f : File.

Definition excelFlow : bool := isExcelByExtension f || isExcelByType f.

Definition rejectFile (s : State) : State :=
  s |> setFileUpload
         (Some (mkFileUpload f Failed (Some "Please upload a CSV or Excel file only")
                  None None None None))
    |> setErrorNotification
         (Some (mkNotification "Invalid file format"
            (Some "Please upload a CSV or Excel file only. Other file formats are not supported.")))
    |> setErrorTimeout ClearUploadAndNotice 5000.

(** "Always completely reset previous file state", then the loading chip. *)
Definition replaceUpload (s : State) : State :=
  s |> setFileUpload None
    |> removeItem
    |> setFileUpload (Some (mkFileUpload f Loading None (Some excelFlow) None None None)).

Definition handleFileSelect_begin (s : State) : State :=
  let s := s |> setErrorNotification None |> clearErrorTimeout in
  if rejected f then rejectFile s
  else
    let s := replaceUpload s in
    if excelFlow then s |> send (ExcelSheets f)
    else handleFilePreview_begin c f true s.

Definition sheetsFailed (e : Error) (s : State) : State :=
  s |> updFileUpload (failWith ("Excel error: " ++ getErrorMessage e))
    |> setErrorNotification
         (Some (mkNotification "Excel processing failed" (Some (getErrorMessage e))))
    |> setErrorTimeout ClearUploadAndNotice 5000.

Definition handleFileSelect_afterSheets (r : Resp (list string)) (s : State) : State :=
  match r with
  | Ok (sh :: l) => s |> updFileUpload (withSheets (sh :: l)) |> setShowSheetSelector true
  | Ok [] => sheetsFailed (PlainError "No sheets found in Excel file") s
  | Err e => sheetsFailed e s
  end.

(** Line 679, after [await handleFilePreview(file, true)] returned. *)
Definition handleFileSelect_afterPreview (s : State) : State :=
  updFileUpload (withStatus Success) s.

Definition handleFileSelect
    (rSheets : Resp (list string))
    (rReset : Resp unit) (rUpload : Resp UploadData) (rPreview : Resp PreviewData)
    (s : State) : State :=
  let s0 := s |> setErrorNotification None |> clearErrorTimeout in
  if rejected f then rejectFile s0
  else if excelFlow then
    handleFileSelect_afterSheets rSheets (render (handleFileSelect_begin s))
  else
    handleFileSelect_afterPreview
      (render (handleFilePreview c f true rReset rUpload rPreview (replaceUpload s0))).

End FileSelect.

(** ** handleExcelSheetPreview and handleSheetSelectionConfirm (lines 1540-1777) *)

Section ExcelSheetFlow.

Variable c : Closure.
Variable f : File.
Variable sheetName : string.
Variable isNewDataset : bool.

Definition excelTempName : string :=
  Js.stripExcelExtension (fname f) ++ " - " ++ sheetName.

Definition sendExcelUpload (s : State) : State :=
  s |> send (UploadExcel f excelTempName (existingDescription c isNewDataset)
               (Some sheetName)).

Definition excelPreviewFailed (e : Error) (s : State) : State :=
  s |> consoleError "Excel upload error details:"
    |> previewCatch "Excel file preview failed" e
    |> consoleError "Failed to preview Excel sheet:"
    |> previewCatch "Excel sheet preview failed" e.

Definition sheetChosen (id : option Z) (p : FileUpload) : FileUpload :=
  mkFileUpload (file p) Success (errorMessage p) (isExcel p) (sheets p)
    (Some sheetName) id.

Definition handleExcelSheetPreview_begin (s : State) : State :=
  let s := s |> setErrorNotification None |> clearErrorTimeout in
  if Js.truthyOpt (c_sessionId c) then s |> send (ResetSession (c_sessionId c))
  else sendExcelUpload s.

Definition handleExcelSheetPreview_afterReset (r : Resp unit) (s : State) : State :=
  match r with
  | Ok _ => sendExcelUpload s
  | Err _ => s |> consoleError "Failed to reset session before Excel preview:"
               |> sendExcelUpload
  end.

Definition handleExcelSheetPreview_afterUpload (r : Resp UploadData) (s : State) : State :=
  match r with
  | Ok u =>
      (if idTruthy (u_dataset_upload_id u)
       then updFileUpload (fun p => sheetChosen (u_dataset_upload_id u) p) s
       else updFileUpload (fun p => sheetChosen (dataset_upload_id p) p) s)
      |> updFileUpload (fun p => sheetChosen (dataset_upload_id p) p)
      |> send (PreviewCsv (header (orElseOpt (u_session_id u) (c_sessionId c))))
  | Err e => excelPreviewFailed e s
  end.

Definition handleExcelSheetPreview_afterPreview
    (u : UploadData) (r : Resp PreviewData) (s : State) : State :=
  match r with
  | Ok p => showPreviewOf c isNewDataset excelTempName p u s
  | Err e => excelPreviewFailed e s
  end.

Definition handleExcelSheetPreview
    (rReset : Resp unit) (rUpload : Resp UploadData) (rPreview : Resp PreviewData)
    (s : State) : State :=
  let s1 := handleExcelSheetPreview_begin s in
  let s2 := if Js.truthyOpt (c_sessionId c)
            then handleExcelSheetPreview_afterReset rReset (render s1) else s1 in
  let s3 := handleExcelSheetPreview_afterUpload rUpload (render s2) in
  match rUpload with
  | Ok u => handleExcelSheetPreview_afterPreview u rPreview (render s3)
  | Err _ => s3
  end.

End ExcelSheetFlow.

Section SheetSelection.

Variable c : Closure.

(** The sheet the Continue button works on, if the guard of the handler
    lets it through. *)
Definition confirmable : option (File * string) :=
  match c_fileUpload c with
  | Some fu =>
      match selectedSheet fu with
      | Some sh => if Js.truthy sh then Some (file fu, sh) else None
      | None => None
      end
  | None => None
  end.

Definition handleSheetSelectionConfirm_begin (s : State) : State :=
  match confirmable with
  | Some (f, sh) =>
      s |> updFileUpload (withStatus Loading)
        |> handleExcelSheetPreview_begin c f sh true
  | None => s
  end.

Definition handleSheetSelectionConfirm_afterPreview (s : State) : State :=
  s |> updFileUpload (withStatus Success) |> setShowSheetSelector false.

Definition handleSheetSelectionConfirm
    (rReset : Resp unit) (rUpload : Resp UploadData) (rPreview : Resp PreviewData)
    (s : State) : State :=
  match confirmable with
  | Some (f, sh) =>
      handleSheetSelectionConfirm_afterPreview
        (render (handleExcelSheetPreview c f sh true rReset rUpload rPreview
                   (updFileUpload (withStatus Loading) s)))
  | None => s
  end.

(** The sheet dialog: [onOpenChange], the Cancel button, the select box and
    the Change button of the chip. *)
Definition sheetDialog_onOpenChange (open : bool) (s : State) : State :=
  if open then s
  else
    (if c_showPreview c then s else s |> setFileUpload None |> removeItem)
    |> setShowSheetSelector false.

Definition sheetDialog_cancel (s : State) : State :=
  s |> setShowSheetSelector false |> setFileUpload None |> removeItem.

Definition sheetDialog_onValueChange (sheet : string) (s : State) : State :=
  updFileUpload (withSelectedSheet (Some sheet)) s.

End SheetSelection.

(** ** The default dataset (lines 1027-1162) *)

Section DefaultDataset.

Variable c : Closure.

Definition defaultDescriptionText : string :=
  "Default housing dataset containing information about residential properties".

Definition defaultDataset_begin (s : State) : State :=
  s |> setFileUpload None
    |> removeItem
    |> with_lastUploadedFileRef None
    |> clearFileInput
    |> send (ResetSession (header (c_sessionId c))).

(** [show] tells the previewing variant from the silent one. *)
Definition defaultDataset_afterReset (show : bool) (r : Resp unit) (s : State) : State :=
  match r with
  | Ok _ => s |> send (GetDefaultDataset (header (c_sessionId c)))
  | Err _ =>
      s |> consoleError (if show then "Failed to reset session for default dataset:"
                         else "Failed to silently reset session for default dataset:")
        |> send (GetDefaultDataset (header (c_sessionId c)))
  end.

Definition defaultDataset_afterFetch (show : bool) (r : Resp DefaultData) (s : State)
    : State :=
  match r with
  | Ok d =>
      let descr := Js.orElse (d_description d) defaultDescriptionText in
      s |> setFilePreview (mkFilePreview (d_headers d) (d_rows d) (d_name d) descr)
        |> setDatasetDescription (mkDescription (Js.orElse (d_name d) "Dataset") descr)
        |> (fun s => if show then setShowPreview true s else s)
        |> setSessionIdIfTruthy (d_session_id d)
        |> setDatasetMismatch false
        |> setShowDatasetResetPopup false
  | Err _ =>
      s |> consoleError (if show then "Failed to fetch dataset preview:"
                         else "Failed to silently load default dataset:")
  end.

Definition defaultDataset (show : bool) (rReset : Resp unit) (rFetch : Resp DefaultData)
    (s : State) : State :=
  defaultDataset_afterFetch show rFetch
    (render (defaultDataset_afterReset show rReset (render (defaultDataset_begin s)))).

Definition handlePreviewDefaultDataset := defaultDataset true.
Definition handleSilentDefaultDataset := defaultDataset false.

End DefaultDataset.

(** ** handleUploadWithDescription, the commit (lines 1164-1375) *)

Section Commit.

Variable c : Closure.

Definition missingMetadata : bool :=
  negb (Js.truthy (name (c_datasetDescription c)))
  || negb (Js.truthy (description (c_datasetDescription c))).

(** [fileInputRef.current?.files?.[0]]. *)
Definition inputFile (s : State) : option File :=
  match fileInputRef s with Some o => o | None => None end.

(** [fileInputRef.current?.files?.[0] || (fileUpload?.file || null)]. *)
Definition actualFile (s : State) : option File :=
  match inputFile s with
  | Some f => Some f
  | None => option_map file (c_fileUpload c)
  end.

Definition isMockFile (a : File) (s : State) : bool :=
  (fsize a =? 0)%N
  && match inputFile s with Some _ => false | None => true end
  && (flastModified a =? 0)%Z.

Definition isExcelFile (a : File) : bool :=
  match c_fileUpload c with
  | Some fu => match isExcel fu with Some b => b | None => false end
  | None => false
  end
  || Js.endsWith (Js.toLowerCase (fname a)) ".xlsx"
  || Js.endsWith (Js.toLowerCase (fname a)) ".xls".

Definition chosenSheet : option string :=
  match c_fileUpload c with Some fu => selectedSheet fu | None => None end.

Definition sendFinalUpload (a : File) (s : State) : State :=
  let d := c_datasetDescription c in
  if isExcelFile a then
    s |> send (UploadExcel a (name d) (description d)
                 (if Js.truthyOpt chosenSheet then chosenSheet else None))
  else s |> send (UploadDataframe a (name d) (description d)).

Definition refuseMissingMetadata (s : State) : State :=
  s |> setErrorNotification
         (Some (mkNotification "Missing information"
            (Some "Please provide both a name and description for the dataset")))
    |> setErrorTimeout ClearNotice 5000.

Definition refuseMockFile (s : State) : State :=
  let s := s |> alert AlertSelectAgain |> setFileUpload None |> removeItem in
  let s := match fileInputRef s with
           | Some _ => s |> clearFileInput |> setTimeout ClickFileInput 100
           | None => s
           end in
  setShowPreview false s.

Definition commit_begin (s : State) : State :=
  if missingMetadata then refuseMissingMetadata s
  else
    let s := s |> setErrorNotification None |> clearErrorTimeout in
    match actualFile s with
    | Some a =>
        if isMockFile a s then refuseMockFile s
        else if Js.truthyOpt (c_sessionId c) then s |> send (ResetSession (c_sessionId c))
        else sendFinalUpload a s
    | None =>
        s |> send (ResetSessionUpdate (header (c_sessionId c)) (c_datasetDescription c))
    end.

Definition commit_afterReset (a : File) (r : Resp unit) (s : State) : State :=
  match r with
  | Ok _ => sendFinalUpload a s
  | Err _ => s |> consoleError "Failed to reset session before final upload:"
               |> sendFinalUpload a
  end.

(** The block under [if (response.status === 200)]. *)
Definition accepted (u : UploadData) (s : State) : State :=
  if (u_status u =? 200)%nat then
    s |> setSessionIdIfTruthy (u_session_id u)
      |> setShowPreview false
      |> setUploadSuccess true
      |> setTimeout HideUploadSuccess 3000
  else s.

Definition updatedFileName : string :=
  let n := name (c_datasetDescription c) in
  if Js.endsWith n ".csv" then n else n ++ ".csv".

Definition committedUpload (a : File) : FileUpload :=
  mkFileUpload (mkFile updatedFileName "text/csv" (fsize a) (flastModified a)) Success None
    (Some (isExcelFile a))
    (match c_fileUpload c with Some fu => sheets fu | None => None end)
    chosenSheet None.

Definition committedRecord (a : File) : LocalDatasetRecord :=
  mkRecord updatedFileName "text/csv" (flastModified a) (Some (isExcelFile a)) chosenSheet.

(** "Only update fileUpload state after successful upload" and what
    follows it; [a] is [actualFile]. *)
Definition commit_tail (a : option File) (s : State) : State :=
  let s := s |> setShowPreview false |> setUploadSuccess true in
  let s := match a with
           | Some a => s |> setFileUpload (Some (committedUpload a))
                         |> setItem (Rec (committedRecord a))
           | None => s
           end in
  setTimeout HideUploadSuccess 3000 s.

Definition commitFailed (s : State) : State :=
  s |> consoleError "Failed to process dataset:" |> alert AlertProcessFailed.

Definition commit_afterUpload (a : File) (r : Resp UploadData) (s : State) : State :=
  match r with
  | Ok u => s |> accepted u |> commit_tail (Some a)
  | Err e => s |> consoleError "Final upload error details:"
               |> alert (AlertUploadFailed e)
               |> commitFailed
  end.

Definition commit_afterUpdate (r : Resp UploadData) (s : State) : State :=
  match r with
  | Ok u => s |> accepted u |> commit_tail None
  | Err _ => commitFailed s
  end.

Definition handleUploadWithDescription
    (rReset : Resp unit) (rUpload : Resp UploadData) (s : State) : State :=
  if missingMetadata then refuseMissingMetadata s
  else
    let s0 := s |> setErrorNotification None |> clearErrorTimeout in
    match actualFile s0 with
    | Some a =>
        if isMockFile a s0 then refuseMockFile s0
        else
          let s1 := commit_begin s in
          let s2 := if Js.truthyOpt (c_sessionId c)
                    then commit_afterReset a rReset (render s1) else s1 in
          commit_afterUpload a rUpload (render s2)
    | None => commit_afterUpdate rUpload (render (commit_begin s))
    end.

End Commit.

(** ** generateDatasetDescription (lines 1418-1457) *)

Section Generate.

Variable c : Closure.

Definition hasExistingDescription : bool :=
  let d := description (c_datasetDescription c) in
  Js.truthy d && negb (String.eqb d generating) && negb (String.eqb d "Preview dataset").

Definition generate_begin (s : State) : State :=
  if Js.truthyOpt (c_sessionId c) then
    s |> setIsGeneratingDescription true
      |> updDescription (fun _ => generating)
      |> send (CreateDatasetDescription (c_sessionId c) hasExistingDescription)
  else s.

(** The [catch] block: give up the sentinel, keep anything else. *)
Definition revertSentinel (d : string) : string :=
  if String.eqb d generating then "" else d.

Definition generate_done (r : Resp string) (s : State) : State :=
  (match r with
   | Ok d => if Js.truthy d then updDescription (fun _ => d) s else s
   | Err _ => s |> consoleError "Failed to generate description:"
                |> updDescription revertSentinel
   end)
  |> setIsGeneratingDescription false.

Definition generateDatasetDescription (r : Resp string) (s : State) : State :=
  if Js.truthyOpt (c_sessionId c) then generate_done r (render (generate_begin s))
  else s.

End Generate.

(** ** handleDatasetReset, the answer to the mismatch popup (lines 1460-1537) *)

Section DatasetReset.

Variable c : Closure.

Definition closeResetPopup (s : State) : State :=
  s |> setShowDatasetResetPopup false |> setDatasetMismatch false.

(** The real file the "keep" answer previews again, if there is one. *)
Definition keptRealFile (keepCustomData : bool) : option File :=
  match c_fileUpload c with
  | Some fu =>
      if keepCustomData && negb (fsize (file fu) =? 0)%N then Some (file fu) else None
  | None => None
  end.

Definition handleDatasetReset_begin (keepCustomData : bool) (s : State) : State :=
  match c_fileUpload c with
  | Some fu =>
      if keepCustomData then
        if (fsize (file fu) =? 0)%N then
          let s := s |> setFileUpload None |> removeItem in
          match fileInputRef s with
          | Some _ => s |> clearFileInput |> closeResetPopup
                        |> setTimeout ClickFileInput 100
          | None =>
              s |> setShowPreview true
                |> setDatasetDescription
                     (mkDescription (Js.replaceFirst ".csv" "" (fname (file fu)))
                        "Please provide a description for your dataset")
                |> closeResetPopup
          end
        else handleFilePreview_begin c (file fu) false s
      else
        s |> setFileUpload None |> removeItem |> defaultDataset_begin c |> closeResetPopup
  | None =>
      s |> setFileUpload None |> removeItem |> defaultDataset_begin c |> closeResetPopup
  end.

(** After [await handleFilePreview(fileUpload.file)] returned. *)
Definition handleDatasetReset_afterPreview (s : State) : State := closeResetPopup s.

(** The whole answer.  With a real file kept, the preview is awaited; the
    default dataset is started and not awaited, its answers arrive later. *)
Definition handleDatasetReset (keepCustomData : bool)
    (rReset : Resp unit) (rUpload : Resp UploadData) (rPreview : Resp PreviewData)
    (rFetch : Resp DefaultData) (s : State) : State :=
  match keptRealFile keepCustomData with
  | Some f =>
      handleDatasetReset_afterPreview
        (render (handleFilePreview c f false rReset rUpload rPreview s))
  | None =>
      match c_fileUpload c with
      | Some fu =>
          if keepCustomData then handleDatasetReset_begin keepCustomData s
          else
            defaultDataset_afterFetch true rFetch
              (render (defaultDataset_afterReset c true rReset
                         (render (handleDatasetReset_begin keepCustomData s))))
      | None =>
          defaultDataset_afterFetch true rFetch
            (render (defaultDataset_afterReset c true rReset
                       (render (handleDatasetReset_begin keepCustomData s))))
      end
  end.

End DatasetReset.

(** ** Reconciliation with the session (lines 342-432 and 466-532) *)

Section Reconcile.

Variable c : Closure.

(** Both effects start with [GET session-info] when there is a session. *)
Definition sessionEffect_begin (s : State) : State :=
  if Js.truthyOpt (c_sessionId c) then s |> send (GetSessionInfo (c_sessionId c)) else s.

(** [new File([""], name + ".csv", {type: 'text/csv'})], made at time [now]. *)
Definition placeholderFile (datasetName : string) (now : Z) : File :=
  mkFile (Js.orElse datasetName "Custom Dataset" ++ ".csv") "text/csv" 0 now.

(** checkSessionDataset, once the session info arrived. *)
Definition checkSessionDataset_afterInfo (now : Z) (r : Resp SessionInfo) (s : State)
    : State :=
  match r with
  | Ok info =>
      if is_custom_dataset info then
        match c_fileUpload c, localStorage s with
        | None, Some (Rec rec) =>
            s |> setFileUpload (Some (freshUpload (mockFile rec) Success))
        | None, Some Corrupt =>
            s |> consoleError "Error restoring file info:" |> removeItem
        | None, None =>
            s |> setFileUpload
                   (Some (freshUpload (placeholderFile (dataset_name info) now) Success))
              |> setDatasetMismatch true
        | Some _, _ => s
        end
      else
        match c_fileUpload c with
        | Some fu =>
            match status fu with
            | Success => s |> setDatasetMismatch true |> setShowDatasetResetPopup true
            | _ => s |> setFileUpload None |> removeItem
            end
        | None => s |> setFileUpload None |> removeItem
        end
  | Err _ => s |> consoleError "Error checking session dataset in ChatInput:"
  end.

Definition checkSessionDataset (now : Z) (r : Resp SessionInfo) (s : State) : State :=
  if Js.truthyOpt (c_sessionId c)
  then checkSessionDataset_afterInfo now r (render (sessionEffect_begin s))
  else s.

(** The chat-switch effect, once the session info arrived. *)
Definition chatSwitch_afterInfo (now : Z) (r : Resp SessionInfo) (s : State) : State :=
  match r with
  | Ok info =>
      if is_custom_dataset info then
        match localStorage s with
        | Some (Rec rec) =>
            s |> setFileUpload (Some (freshUpload (mockFile rec) Success))
              |> send (PreviewCsv (c_sessionId c))
        | Some Corrupt => s |> consoleError "Error parsing stored file info:"
        | None =>
            let s :=
              s |> setFileUpload
                     (Some (freshUpload (placeholderFile (dataset_name info) now) Success)) in
            if Js.truthy (dataset_name info) || Js.truthy (dataset_description info) then
              s |> setDatasetDescription
                     (mkDescription (Js.orElse (dataset_name info) "Custom Dataset")
                        (Js.orElse (dataset_description info) "Custom dataset"))
            else s
        end
      else
        s |> setFileUpload None |> removeItem |> with_lastUploadedFileRef None
  | Err _ => s |> consoleError "Failed to get session info:"
  end.

Definition chatSwitch_afterPreview (r : Resp PreviewData) (s : State) : State :=
  match r with
  | Ok p =>
      s |> setFilePreview (mkFilePreview (p_headers p) (p_rows p) (p_name p) (p_description p))
        |> setDatasetDescription (mkDescription (p_name p) (p_description p))
  | Err _ => s |> consoleError "Failed to get dataset preview:"
  end.

End Reconcile.

(** ** The chip, the preview dialog, the notice, and the timers *)

Section Chip.

Variable c : Closure.

(** The eye button; the chip shows it when the status is success. *)
Definition eyeUsesExcel : option (File * string) :=
  match c_fileUpload c with
  | Some fu =>
      match isExcel fu, selectedSheet fu with
      | Some true, Some sh => if Js.truthy sh then Some (file fu, sh) else None
      | _, _ => None
      end
  | None => None
  end.

Definition eyePreview_begin (s : State) : State :=
  match c_fileUpload c with
  | Some fu =>
      match eyeUsesExcel with
      | Some (f, sh) => handleExcelSheetPreview_begin c f sh false s
      | None => handleFilePreview_begin c (file fu) false s
      end
  | None => s
  end.

(** The [.then] of the eye button, with the values of its closure. *)
Definition eyePreview_then (s : State) : State :=
  let d := description (c_datasetDescription c) in
  let currentDescription := d in
  if (String.eqb d "Preview dataset" || negb (String.eqb d currentDescription))
     && Js.truthy currentDescription
     && negb (String.eqb currentDescription "Preview dataset")
     && negb (String.eqb currentDescription guidance)
  then updDescription (fun _ => currentDescription) s
  else s.

(** [onOpenChange] of the dataset details dialog. *)
Definition previewDialog_onOpenChange (open : bool) (s : State) : State :=
  if negb open && negb (c_isGeneratingDescription c) then
    let s := setShowPreview false s in
    match c_fileUpload c with
    | Some fu =>
        match status fu with
        | Success => s
        | _ => s |> setFileUpload None |> removeItem |> clearFileInput
        end
    | None => s |> setFileUpload None |> removeItem |> clearFileInput
    end
  else s.

End Chip.

(** [clearFile] (lines 909-915). *)
Definition clearFile (s : State) : State :=
  s |> setFileUpload None |> removeItem |> clearFileInput.

Definition runTimer (a : TimerAction) (s : State) : State :=
  match a with
  | ClearUploadAndNotice =>
      s |> setFileUpload None |> removeItem |> setErrorNotification None
  | ClearNotice => setErrorNotification None s
  | HideUploadSuccess => setUploadSuccess false s
  | ClickFileInput => s
  | AutoGenerate c => generate_begin c s
  end.

(** The timeout [id] expires, if it is still pending. *)
Definition fireTimer (id : nat) (s : State) : State :=
  match find (fun t => (tid t =? id)%nat) (timers s) with
  | Some t => runTimer (action t) (clearTimeout id s)
  | None => s
  end.

(** ** The component as a transition system

    A [Segment] is one uninterrupted piece of code: an event handler up to
    its first [await], or the continuation of a handler when an answer of the
    backend arrives, with the closure (and the local constants) it carries.
    [step] runs it and renders. *)

Inductive Segment :=
(* the hidden file input *)
| FileChosen (c : Closure) (f : File)
| SheetsArrived (f : File) (r : Resp (list string))
| SelectPreviewReturned
(* handleFilePreview *)
| PreviewResetArrived (c : Closure) (f : File) (isNew : bool) (r : Resp unit)
| PreviewUploadArrived (c : Closure) (f : File) (isNew : bool) (r : Resp UploadData)
| PreviewArrived (c : Closure) (f : File) (isNew : bool) (u : UploadData)
    (r : Resp PreviewData)
(* handleExcelSheetPreview *)
| SheetResetArrived (c : Closure) (f : File) (sh : string) (isNew : bool) (r : Resp unit)
| SheetUploadArrived (c : Closure) (f : File) (sh : string) (r : Resp UploadData)
| SheetPreviewArrived (c : Closure) (f : File) (sh : string) (isNew : bool)
    (u : UploadData) (r : Resp PreviewData)
(* the sheet dialog *)
| SheetConfirmed (c : Closure)
| SheetConfirmReturned
| SheetDialogOpenChange (c : Closure) (open : bool)
| SheetDialogCancelled
| SheetPicked (sheet : string)
| ChangeSheetClicked
(* the default dataset *)
| DefaultRequested (c : Closure)
| DefaultResetArrived (c : Closure) (show : bool) (r : Resp unit)
| DefaultArrived (show : bool) (r : Resp DefaultData)
(* the commit *)
| CommitClicked (c : Closure)
| CommitResetArrived (c : Closure) (a : File) (r : Resp unit)
| CommitUploadArrived (c : Closure) (a : File) (r : Resp UploadData)
| CommitUpdateArrived (c : Closure) (r : Resp UploadData)
(* the description *)
| GenerateClicked (c : Closure)
| GenerateArrived (r : Resp string)
| NameEdited (n : string)
| DescriptionEdited (d : string)
(* the mismatch popup *)
| ResetAnswered (c : Closure) (keepCustomData : bool)
| ResetPreviewReturned
| ResetPopupClosed
(* the session effects *)
| SessionChanged (c : Closure)
| CheckInfoArrived (c : Closure) (now : Z) (r : Resp SessionInfo)
| ChatInfoArrived (c : Closure) (now : Z) (r : Resp SessionInfo)
| ChatPreviewArrived (r : Resp PreviewData)
(* the chip and the dialogs *)
| EyeClicked (c : Closure)
| EyeReturned (c : Closure)
| PreviewDialogOpenChange (c : Closure) (open : bool)
| PreviewDialogClosed
| NoticeDismissed
| TimerFired (id : nat).

Definition run (g : Segment) (s : State) : State :=
  match g with
  | FileChosen c f => handleFileSelect_begin c f (with_fileInputRef (Some (Some f)) s)
  | SheetsArrived f r => handleFileSelect_afterSheets r s
  | SelectPreviewReturned => handleFileSelect_afterPreview s
  | PreviewResetArrived c f n r => handleFilePreview_afterReset c f n r s
  | PreviewUploadArrived c _ _ r => handleFilePreview_afterUpload c r s
  | PreviewArrived c f n u r => handleFilePreview_afterPreview c f n u r s
  | SheetResetArrived c f sh n r => handleExcelSheetPreview_afterReset c f sh n r s
  | SheetUploadArrived c _ sh r => handleExcelSheetPreview_afterUpload c sh r s
  | SheetPreviewArrived c f sh n u r => handleExcelSheetPreview_afterPreview c f sh n u r s
  | SheetConfirmed c => handleSheetSelectionConfirm_begin c s
  | SheetConfirmReturned => handleSheetSelectionConfirm_afterPreview s
  | SheetDialogOpenChange c o => sheetDialog_onOpenChange c o s
  | SheetDialogCancelled => sheetDialog_cancel s
  | SheetPicked sh => sheetDialog_onValueChange sh s
  | ChangeSheetClicked => setShowSheetSelector true s
  | DefaultRequested c => defaultDataset_begin c s
  | DefaultResetArrived c show r => defaultDataset_afterReset c show r s
  | DefaultArrived show r => defaultDataset_afterFetch show r s
  | CommitClicked c => commit_begin c s
  | CommitResetArrived c a r => commit_afterReset c a r s
  | CommitUploadArrived c a r => commit_afterUpload c a r s
  | CommitUpdateArrived c r => commit_afterUpdate c r s
  | GenerateClicked c => generate_begin c s
  | GenerateArrived r => generate_done r s
  | NameEdited n => updName n s
  | DescriptionEdited d => updDescription (fun _ => d) s
  | ResetAnswered c k => handleDatasetReset_begin c k s
  | ResetPreviewReturned => handleDatasetReset_afterPreview s
  | ResetPopupClosed => setShowDatasetResetPopup false s
  | SessionChanged c => sessionEffect_begin c (sessionEffect_begin c s)
  | CheckInfoArrived c now r => checkSessionDataset_afterInfo c now r s
  | ChatInfoArrived c now r => chatSwitch_afterInfo c now r s
  | ChatPreviewArrived r => chatSwitch_afterPreview r s
  | EyeClicked c => eyePreview_begin c s
  | EyeReturned c => eyePreview_then c s
  | PreviewDialogOpenChange c o => previewDialog_onOpenChange c o s
  | PreviewDialogClosed => setShowPreview false s
  | NoticeDismissed => setErrorNotification None s
  | TimerFired id => fireTimer id s
  end.

Definition step (g : Segment) (s : State) : State := render (run g s).

Fixpoint steps (gs : list Segment) (s : State) : State :=
  match gs with
  | [] => s
  | g :: gs => steps gs (step g s)
  end.

(** The component before its first render, over a given content of the
    storage slot; [mounted] tells whether the file input is on the page. *)
Definition initial (stored : option Stored) (mounted : bool) : State :=
  mkState None None 0 false None (mkDescription "" "") false None false false
    None false false None None (if mounted then Some None else None) stored [] 0 [] [] [].

(** The record is written only for a successful upload shown in memory:
    between [s] and [s'] the slot is untouched, emptied, or holds the
    fingerprint of the file of [fileUpload], whose status is success. *)
Definition sameFingerprint (r : LocalDatasetRecord) (fu : FileUpload) : Prop :=
  rname r = fname (file fu) /\ rtype r = ftype (file fu)
  /\ rlastModified r = flastModified (file fu).

Definition writtenOnlyForSuccess (s s' : State) : Prop :=
  localStorage s' = localStorage s
  \/ localStorage s' = None
  \/ exists fu r, fileUpload s' = Some fu /\ status fu = Success
                  /\ localStorage s' = Some (Rec r) /\ sameFingerprint r fu.

(** ** The message box (lines 919-962, 992-997, 1378-1384, 2008-2058)

    The text area, the two suggestion lists above it and what disables it.
    This part of the component shares no state with the dataset part. *)

Module MessageBox.

(** [s.slice(0, n)], [s.slice(n)] for [0 <= n], [s.lastIndexOf(c)],
    [s.includes(c)] and [s.startsWith(c)] for a one-character [c].  A
    character of the model stands for one code unit of the string; the two
    slices stop at the end of the string. *)
Fixpoint sliceTo (n : nat) (s : string) : string :=
  match n, s with
  | S k, String c r => String c (sliceTo k r)
  | _, _ => ""
  end.

Fixpoint sliceFrom (n : nat) (s : string) : string :=
  match n, s with
  | S k, String _ r => sliceFrom k r
  | _, _ => s
  end.

Fixpoint lastIndexOf (c : ascii) (s : string) : option nat :=
  match s with
  | EmptyString => None
  | String a r =>
      match lastIndexOf c r with
      | Some i => Some (S i)
      | None => if Ascii.eqb a c then Some 0 else None
      end
  end.

Fixpoint includes (c : ascii) (s : string) : bool :=
  match s with
  | EmptyString => false
  | String a r => Ascii.eqb a c || includes c r
  end.

Definition startsWith (c : ascii) (s : string) : bool :=
  match s with
  | EmptyString => false
  | String a _ => Ascii.eqb a c
  end.

(** [message], [cursorPosition], [commandQuery], [showCommandSuggestions];
    whether [inputRef.current] is set; and the caret that the pending 0 ms
    timeout of [handleAgentSelect] is going to set. *)
Record Box := mkBox {
  message : string;
  cursorPosition : nat;
  commandQuery : string;
  showCommandSuggestions : bool;
  inputRef : bool;
  pendingCaret : option nat
}.

(** [handleInputChange]: [sel] is [e.target.selectionStart], which may be
    null. *)
Definition handleInputChange (value : string) (sel : option nat) (b : Box) : Box :=
  let commands := startsWith "/" value && negb (includes "@" value) in
  mkBox value (match sel with Some n => n | None => 0 end)
        (if commands then value else "") commands
        (inputRef b) (pendingCaret b).

(** [handleAgentSelect]. *)
Definition handleAgentSelect (agentName : string) (b : Box) : Box :=
  let beforeCursor := sliceTo (cursorPosition b) (message b) in
  let afterCursor := sliceFrom (cursorPosition b) (message b) in
  match lastIndexOf "@" beforeCursor with
  | Some lastAtIndex =>
      let newMessage :=
        sliceTo (lastAtIndex + 1) (message b) ++ agentName ++ " " ++ afterCursor in
      let newCursorPos := lastAtIndex + String.length agentName + 2 in
      mkBox newMessage (cursorPosition b) (commandQuery b) (showCommandSuggestions b)
            (inputRef b) (Some newCursorPos)
  | None => b
  end.

(** The 0 ms timeout: where the caret is put, when the text area is still
    mounted. *)
Definition caretAfterTimeout (b : Box) : option nat :=
  if inputRef b then pendingCaret b else None.

(** [isVisible] of the two suggestion lists. *)
Definition commandSuggestionsVisible (b : Box) : bool := showCommandSuggestions b.

Definition agentSuggestionsVisible (b : Box) : bool :=
  negb (showCommandSuggestions b) && includes "@" (message b).

(** [isLoading], [isChatBlocked] and the optional [disabled] prop. *)
Record Availability := mkAvailability {
  isLoading : bool;
  isChatBlocked : bool;
  disabled : bool
}.

Definition getPlaceholderText (a : Availability) : string :=
  if isLoading a then "Please wait..."
  else if isChatBlocked a then "You've used all your tokens for this month"
  else if disabled a then "Free trial used. Please sign in to continue."
  else "Type your message here...".

Definition isInputDisabled (a : Availability) : bool :=
  if isChatBlocked a then true else disabled a || isLoading a || false.

End MessageBox.

(** * Properties *)

(** ** Proof support: unfolding the primitives, splitting the branches *)

Create HintDb prims.
#[local] Hint Unfold
  fileUpload fileUploadId
  setFileUpload updFileUpload setShowPreview setFilePreview setDatasetDescription
  setUploadSuccess setShowDatasetResetPopup setDatasetMismatch setErrorNotification
  setIsGeneratingDescription setShowSheetSelector setSessionIdIfTruthy updDescription
  updName removeItem setItem send alert consoleError clearFileInput setTimeout
  setErrorTimeout clearTimeout clearErrorTimeout closureOf : prims.

Create HintDb effects.
#[local] Hint Unfold
  render commitEffects seenCurrent restoreEffect persistEffect : effects.

(** Unfold the primitives and project: only the projections of the records
    and the field updates compute, so that a [render] inside the term is
    left alone. *)
Ltac project :=
  cbn [upload effectsSeen nextId showPreview filePreview datasetDescription uploadSuccess sessionId showDatasetResetPopup datasetMismatch errorNotification isGeneratingDescription showSheetSelector errorTimeoutRef lastUploadedFileRef fileInputRef localStorage timers nextTimer calls alerts console
       with_upload with_effectsSeen with_nextId with_showPreview with_filePreview with_datasetDescription with_uploadSuccess with_sessionId with_showDatasetResetPopup with_datasetMismatch with_errorNotification with_isGeneratingDescription with_showSheetSelector with_errorTimeoutRef with_lastUploadedFileRef with_fileInputRef with_localStorage with_timers with_nextTimer with_calls with_alerts with_console
       option_map fst snd
       file status errorMessage isExcel sheets selectedSheet dataset_upload_id
       c_fileUpload c_datasetDescription c_sessionId c_showPreview
       c_isGeneratingDescription name description
       tid delay action
       is_custom_dataset dataset_name dataset_description
       u_status u_session_id u_dataset_upload_id
       p_headers p_rows p_name p_description
       d_headers d_rows d_name d_description d_session_id] in *.

Ltac prims := autounfold with prims in *; project.

(** Split on a [match] or [if] that blocks a projection of the state. *)
Ltac branch :=
  match goal with
  | |- context [?p (match ?x with _ => _ end)] =>
      lazymatch type of p with
      | State -> _ => destruct x eqn:?
      end
  end.

Ltac branches := repeat (branch; project).

(** ** Suffixes *)

Lemma endsWith_length s suf :
  Js.endsWith s suf = true -> String.length suf <= String.length s.
Proof.
  induction s as [|ch r IH]; cbn [Js.endsWith].
  - destruct (String.eqb_spec "" suf) as [<-|]; [simpl; lia | discriminate].
  - destruct (String.eqb_spec (String ch r) suf) as [<-|_]; [lia|].
    intros H. apply IH in H. simpl. lia.
Qed.

(** Two suffixes of one string: the shorter is a suffix of the longer. *)
Lemma endsWith_nested s a b :
  Js.endsWith s a = true -> Js.endsWith s b = true ->
  String.length b <= String.length a -> Js.endsWith a b = true.
Proof.
  induction s as [|ch r IH]; cbn [Js.endsWith].
  - destruct (String.eqb_spec "" a) as [<-|]; [|discriminate].
    destruct (String.eqb_spec "" b) as [<-|]; [reflexivity | discriminate].
  - destruct (String.eqb_spec (String ch r) a) as [<-|_].
    + intros _ Hb _. cbn [Js.endsWith]. exact Hb.
    + intros Ha. destruct (String.eqb_spec (String ch r) b) as [<-|_].
      * intros _ Hlen. apply endsWith_length in Ha. simpl in Hlen. lia.
      * intros Hb Hlen. now apply IH.
Qed.

Lemma csv_extension_excludes_excel f :
  isCSVByExtension f = true -> isExcelByExtension f = false.
Proof.
  unfold isCSVByExtension, isExcelByExtension. intros H.
  apply orb_false_intro.
  - destruct (Js.endsWith (Js.toLowerCase (fname f)) ".xlsx") eqn:E; [|reflexivity].
    assert (Js.endsWith ".xlsx" ".csv" = true) as N
      by (apply (endsWith_nested _ _ _ E H); simpl; lia).
    discriminate N.
  - destruct (Js.endsWith (Js.toLowerCase (fname f)) ".xls") eqn:E; [|reflexivity].
    assert (Js.endsWith ".csv" ".xls" = true) as N
      by (apply (endsWith_nested _ _ _ H E); simpl; lia).
    discriminate N.
Qed.

Lemma csv_type_excludes_excel f : isCSVByType f = true -> isExcelByType f = false.
Proof.
  unfold isCSVByType, isExcelByType. intros H.
  apply orb_true_iff in H as [H|H]; apply String.eqb_eq in H; rewrite H; reflexivity.
Qed.

(** ** Rendering *)

(** Split on any [match] of the goal, innermost scrutinee first. *)
Ltac split_match :=
  match goal with
  | |- context [match ?x with _ => _ end] =>
      lazymatch x with
      | context [match _ with _ => _ end] => fail
      | _ => destruct x eqn:?
      end
  end.

(** The fields no effect writes. *)
Definition untouched (s t : State) : Prop :=
  calls t = calls s /\ alerts t = alerts s
  /\ timers t = timers s /\ errorTimeoutRef t = errorTimeoutRef s
  /\ nextTimer t = nextTimer s
  /\ filePreview t = filePreview s
  /\ datasetDescription t = datasetDescription s
  /\ showPreview t = showPreview s
  /\ showSheetSelector t = showSheetSelector s
  /\ datasetMismatch t = datasetMismatch s
  /\ showDatasetResetPopup t = showDatasetResetPopup s
  /\ errorNotification t = errorNotification s
  /\ sessionId t = sessionId s
  /\ isGeneratingDescription t = isGeneratingDescription s
  /\ uploadSuccess t = uploadSuccess s
  /\ fileInputRef t = fileInputRef s.

Lemma untouched_refl s : untouched s s.
Proof. repeat split. Qed.

Lemma untouched_trans s t u : untouched s t -> untouched t u -> untouched s u.
Proof. unfold untouched. intuition congruence. Qed.

Lemma commitEffects_untouched t : untouched t (commitEffects t).
Proof.
  unfold commitEffects. destruct (seenCurrent t); [apply untouched_refl|].
  unfold restoreEffect, persistEffect. prims.
  repeat (split_match; cbn); repeat split.
Qed.

Lemma render_untouched t : untouched t (render t).
Proof.
  unfold render. eapply untouched_trans; apply commitEffects_untouched.
Qed.

Lemma commitEffects_keeps_upload t fu :
  fileUpload t = Some fu -> fileUpload (commitEffects t) = Some fu.
Proof.
  intros H. unfold commitEffects. destruct (seenCurrent t); [exact H|].
  unfold restoreEffect, persistEffect. prims.
  destruct (upload t) as [[n u]|] eqn:U; [|discriminate]. cbn in *.
  destruct (status u); cbn; rewrite ?U; exact H.
Qed.

(** An upload that is shown stays as it is. *)
Lemma render_keeps_upload t fu :
  fileUpload t = Some fu -> fileUpload (render t) = Some fu.
Proof.
  intros H. unfold render. now do 2 apply commitEffects_keeps_upload.
Qed.

Lemma commitEffects_idle t :
  fileUpload t = None -> localStorage t = None ->
  fileUpload (commitEffects t) = None /\ localStorage (commitEffects t) = None.
Proof.
  intros H L. unfold commitEffects. destruct (seenCurrent t); [now split|].
  unfold restoreEffect, persistEffect. prims.
  destruct (upload t) as [[n u]|] eqn:U; [discriminate|]. cbn. rewrite L.
  destruct (lastUploadedFileRef t); cbn; rewrite ?U; now split.
Qed.

(** With nothing shown and nothing stored, nothing appears. *)
Lemma render_idle t :
  fileUpload t = None -> localStorage t = None ->
  fileUpload (render t) = None /\ localStorage (render t) = None.
Proof.
  intros H L. unfold render.
  destruct (commitEffects_idle t H L) as [H1 L1]. now apply commitEffects_idle.
Qed.

(** What a commit leaves in the slot. *)
Definition storedAfter (t t' : State) : Prop :=
  localStorage t' = localStorage t
  \/ localStorage t' = None
  \/ exists fu, fileUpload t' = Some fu /\ status fu = Success
                /\ localStorage t' = Some (Rec (fileInfo fu)).

(** One commit either is done with the slot, or has put a restored upload on
    show whose fingerprint the next commit will write. *)
Lemma commitEffects_written t :
  storedAfter t (commitEffects t)
  \/ exists r, fileUpload t = None /\ localStorage t = Some (Rec r)
               /\ localStorage (commitEffects t) = Some (Rec r)
               /\ fileUpload (commitEffects t) = Some (freshUpload (mockFile r) Success)
               /\ seenCurrent (commitEffects t) = false.
Proof.
  unfold commitEffects. destruct (seenCurrent t) eqn:Seen; [left; left; reflexivity|].
  unfold restoreEffect, persistEffect. prims.
  destruct (upload t) as [[n fu]|] eqn:U; cbn.
  - left. destruct (status fu) eqn:St; cbn; [left; reflexivity| |left; reflexivity].
    right. right. exists fu. prims. rewrite U. auto.
  - destruct (localStorage t) as [[r|]|] eqn:L; cbn.
    + destruct (negb (optEqb storedEqb (lastUploadedFileRef t) (Some (Rec r)))); cbn.
      * right. exists r. unfold seenCurrent. prims. auto.
      * left. left. reflexivity.
    + destruct (negb (optEqb storedEqb (lastUploadedFileRef t) (Some Corrupt))); cbn.
      * left. right. left. reflexivity.
      * left. left. reflexivity.
    + left. right. left. destruct (lastUploadedFileRef t); cbn; exact L.
Qed.

(** A commit that has a successful upload to look at stores its fingerprint. *)
Lemma commitEffects_persists t fu :
  fileUpload t = Some fu -> status fu = Success -> seenCurrent t = false ->
  localStorage (commitEffects t) = Some (Rec (fileInfo fu)).
Proof.
  intros F St Seen. unfold commitEffects. rewrite Seen.
  unfold restoreEffect, persistEffect. prims.
  destruct (upload t) as [[n u]|] eqn:U; [|discriminate].
  cbn in *. injection F as ->. rewrite St. reflexivity.
Qed.

(** After a render the slot is as before, empty, or holds the fingerprint
    of the successful upload that is shown. *)
Lemma render_written t : storedAfter t (render t).
Proof.
  unfold render.
  destruct (commitEffects_written t) as [H | (r & F & L & L1 & F1 & Seen)].
  - destruct (commitEffects_written (commitEffects t))
      as [H2 | (r & F2 & L2 & L3 & F3 & _)].
    + destruct H2 as [E | [E | E]].
      * destruct H as [H | [H | (fu & Hf & Hs & Hl)]].
        -- left. congruence.
        -- right. left. congruence.
        -- right. right. exists fu.
           split; [now apply commitEffects_keeps_upload|].
           split; [assumption | congruence].
      * right. left. exact E.
      * right. right. exact E.
    + destruct H as [H | [H | (fu & Hf & _)]]; [left | |]; congruence.
  - right. right. exists (freshUpload (mockFile r) Success).
    split; [now apply commitEffects_keeps_upload|]. split; [reflexivity|].
    now apply commitEffects_persists.
Qed.

Lemma commitEffects_seen_shown u n fu :
  upload u = Some (n, fu) -> seenCurrent (commitEffects u) = true.
Proof.
  intros U. unfold commitEffects. destruct (seenCurrent u) eqn:Seen; [exact Seen|].
  unfold seenCurrent, restoreEffect, persistEffect. prims. rewrite U. cbn.
  destruct (status fu); cbn; rewrite U; cbn; apply Nat.eqb_refl.
Qed.

Lemma commitEffects_unseen_restored t :
  seenCurrent t = false -> seenCurrent (commitEffects t) = false ->
  exists n fu, upload (commitEffects t) = Some (n, fu).
Proof.
  intros S1. destruct (upload t) as [[n fu]|] eqn:U.
  - intros S2. now rewrite (commitEffects_seen_shown t U) in S2.
  - unfold commitEffects. rewrite S1.
    unfold seenCurrent, restoreEffect, persistEffect. prims. rewrite U. cbn.
    destruct (localStorage t) as [[r|]|]; cbn.
    + destruct (negb (optEqb storedEqb (lastUploadedFileRef t) (Some (Rec r)))); cbn;
        [eauto | rewrite U; discriminate].
    + destruct (negb (optEqb storedEqb (lastUploadedFileRef t) (Some Corrupt))); cbn;
        rewrite U; discriminate.
    + destruct (lastUploadedFileRef t); cbn; rewrite ?U; discriminate.
Qed.

(** A further commit after a render finds nothing to do. *)
Lemma render_stable t : commitEffects (render t) = render t.
Proof.
  unfold render.
  assert (forall u, seenCurrent u = true -> commitEffects u = u) as Done
    by (intros u Hu; unfold commitEffects; now rewrite Hu).
  destruct (seenCurrent t) eqn:S1.
  - rewrite (Done t S1), (Done t S1). now apply Done.
  - destruct (seenCurrent (commitEffects t)) eqn:S2.
    + rewrite (Done _ S2). now apply Done.
    + apply Done.
      destruct (commitEffects_unseen_restored t S1 S2) as (n & fu & U).
      exact (commitEffects_seen_shown _ U).
Qed.

(** A successful upload for which the effects have not run yet: the render
    stores its fingerprint. *)
Lemma render_persists t fu :
  fileUpload t = Some fu -> status fu = Success -> seenCurrent t = false ->
  localStorage (render t) = Some (Rec (fileInfo fu)).
Proof.
  intros F St Seen. unfold render.
  assert (exists n, upload t = Some (n, fu)) as [n U].
  { unfold fileUpload in F. destruct (upload t) as [[n u]|]; [|discriminate F].
    cbn in F. injection F as ->. now exists n. }
  pose proof (commitEffects_seen_shown t U) as Seen2.
  unfold commitEffects at 1. rewrite Seen2. now apply commitEffects_persists.
Qed.

Lemma fileUpload_updFileUpload g t :
  fileUpload (updFileUpload g t) = option_map g (fileUpload t).
Proof. unfold fileUpload, updFileUpload. cbn. destruct (upload t) as [[n u]|]; reflexivity. Qed.

(** ** Which files are taken, and where they go *)

Lemma excelFlow_not_rejected f : excelFlow f = true -> rejected f = false.
Proof.
  unfold excelFlow, rejected. intros H.
  destruct (isExcelByExtension f); cbn in *; [now rewrite andb_false_r|].
  rewrite H. cbn. now rewrite !andb_false_r.
Qed.

Lemma looksCsv_not_rejected f : looksCsv f = true -> rejected f = false.
Proof.
  unfold looksCsv, rejected, isCSVByType, isCSVByExtension. intros H.
  destruct (Js.endsWith (Js.toLowerCase (fname f)) ".csv"); [reflexivity|].
  rewrite orb_false_r in H. rewrite H. cbn. now rewrite andb_false_r.
Qed.

(** C4 (code bug).  The selection of a file has no classifier of its own:
    three tests of the source decide between them where a file goes, and
    they disagree.  A file that is an Excel file by its extension or by its
    declared type is sent to the sheet listing, so a name ending in [.csv]
    goes there exactly when its declared type is an Excel type.  Any other
    file goes to handleFilePreview, which uploads it when its name ends in
    [.csv] or its type is [text/csv].  Every file left sends no request,
    whatever the backend would answer, and a notice "Invalid file format"
    is shown; when the first guard refused it the chip is in error, but when
    the first guard let it through (type [application/csv], or no type at
    all) and handleFilePreview refused it, the selection ends with status
    success on the chip. *)
Theorem C4_selection_routes (c : Closure) (f : File) (s : State)
    (rSheets : Resp (list string)) (rReset : Resp unit)
    (rUpload : Resp UploadData) (rPreview : Resp PreviewData) :
  let first := run (FileChosen c f) s in
  let done := handleFileSelect c f rSheets rReset rUpload rPreview s in
  (excelFlow f = true ->
   calls first = ExcelSheets f :: calls s
   /\ fileUpload first = Some (mkFileUpload f Loading None (Some true) None None None))
  /\ (isCSVByExtension f = true -> excelFlow f = isExcelByType f)
  /\ (excelFlow f = false -> looksCsv f = true ->
      calls first
      = (if Js.truthyOpt (c_sessionId c) then ResetSession (c_sessionId c)
         else UploadDataframe f (tempName f) guidance) :: calls s
      /\ fileUpload first = Some (mkFileUpload f Loading None (Some false) None None None))
  /\ (excelFlow f = false -> looksCsv f = false ->
      calls first = calls s /\ calls done = calls s
      /\ (rejected f = true ->
          fileUpload done
          = Some (mkFileUpload f Failed (Some "Please upload a CSV or Excel file only")
                    None None None None)
          /\ errorNotification done
             = Some (mkNotification "Invalid file format"
                       (Some "Please upload a CSV or Excel file only. Other file formats are not supported.")))
      /\ (rejected f = false ->
          fileUpload done
          = Some (mkFileUpload f Success (Some "Please upload a CSV file only")
                    (Some false) None None None)
          /\ errorNotification done
             = Some (mkNotification "Invalid file format"
                       (Some "Please upload a CSV file. Other file formats are not supported.")))).
Proof.
  intros first done. subst first done.
  split; [|split; [|split]].
  - intros X. unfold run, handleFileSelect_begin.
    rewrite (excelFlow_not_rejected f X). unfold replaceUpload. rewrite X.
    split; reflexivity.
  - intros E. unfold excelFlow. now rewrite (csv_extension_excludes_excel f E).
  - intros X L. unfold run, handleFileSelect_begin.
    rewrite (looksCsv_not_rejected f L). unfold replaceUpload. rewrite X.
    unfold handleFilePreview_begin. rewrite L.
    destruct (Js.truthyOpt (c_sessionId c)); split; reflexivity.
  - intros X L.
    assert (forall t, calls (render t) = calls t) as Calls
      by (intros t; apply (render_untouched t)).
    assert (forall t, errorNotification (render t) = errorNotification t) as Notice.
    { intros t. pose proof (render_untouched t) as U. unfold untouched in U.
      decompose [and] U. assumption. }
    unfold run, handleFileSelect, handleFileSelect_begin.
    destruct (rejected f) eqn:R.
    + split; [reflexivity|]. split; [reflexivity|].
      split; intros H; [|discriminate H]. split; reflexivity.
    + rewrite X. unfold handleFilePreview. rewrite L.
      unfold handleFileSelect_afterPreview, handleFilePreview_begin. rewrite L.
      unfold replaceUpload. rewrite X.
      assert (forall g t, calls (updFileUpload g t) = calls t) as Upd1 by reflexivity.
      assert (forall g t, errorNotification (updFileUpload g t) = errorNotification t)
        as Upd2 by reflexivity.
      split; [reflexivity|].
      split; [rewrite Upd1, Calls; reflexivity|].
      split; intros H; [discriminate H|].
      split.
      * rewrite fileUpload_updFileUpload.
        erewrite render_keeps_upload; [|reflexivity]. reflexivity.
      * rewrite Upd2, Notice. reflexivity.
Qed.

Definition plainNotes : File := mkFile "notes.txt" "" 10 1700000000004.

Definition csvFromWindows : File :=
  mkFile "report.csv" "application/vnd.ms-excel" 10 1700000000005.

(** [report.csv], declared as an Excel document as Windows does where Excel
    is installed, is a CSV file by its extension and is sent to the sheet
    listing; [notes.txt] with no declared type passes the first guard, is
    refused by handleFilePreview without a request, and ends with status
    success. *)
Lemma C4_witness :
  let page := initial None true in
  let c := mkClosure None (mkDescription "" "") None false false in
  isCSVByExtension csvFromWindows = true
  /\ calls (run (FileChosen c csvFromWindows) page) = [ExcelSheets csvFromWindows]
  /\ calls (handleFileSelect c plainNotes (Ok []) (Ok tt)
              (Ok (mkUploadData 200 None None)) (Ok (mkPreviewData [] [] "" "")) page) = []
  /\ option_map status
       (fileUpload (handleFileSelect c plainNotes (Ok []) (Ok tt)
                      (Ok (mkUploadData 200 None None)) (Ok (mkPreviewData [] [] "" ""))
                      page)) = Some Success.
Proof.
  intros page c.
  pose (routes := fun f => C4_selection_routes c f page (Ok []) (Ok tt)
                             (Ok (mkUploadData 200 None None))
                             (Ok (mkPreviewData [] [] "" ""))).
  split; [reflexivity|].
  split; [exact (proj1 (proj1 (routes csvFromWindows) eq_refl))|].
  pose proof (proj2 (proj2 (proj2 (routes plainNotes))) eq_refl eq_refl)
    as (_ & Quiet & _ & Let).
  split; [exact Quiet|].
  rewrite (proj1 (Let eq_refl)). reflexivity.
Defined.

(** ** The persisted record *)

Create HintDb handlers.
#[local] Hint Unfold
  run step fireTimer runTimer clearFile
  handleFileSelect_begin handleFileSelect_afterSheets handleFileSelect_afterPreview
  rejectFile replaceUpload sheetsFailed
  handleFilePreview_begin handleFilePreview_afterReset handleFilePreview_afterUpload
  handleFilePreview_afterPreview previewCatch filePreviewFailed sendUpload showPreviewOf
  handleExcelSheetPreview_begin handleExcelSheetPreview_afterReset
  handleExcelSheetPreview_afterUpload handleExcelSheetPreview_afterPreview
  sendExcelUpload excelPreviewFailed
  handleSheetSelectionConfirm_begin handleSheetSelectionConfirm_afterPreview
  sheetDialog_onOpenChange sheetDialog_cancel sheetDialog_onValueChange
  defaultDataset_begin defaultDataset_afterReset defaultDataset_afterFetch
  commit_begin commit_afterReset commit_afterUpload commit_afterUpdate
  refuseMissingMetadata refuseMockFile sendFinalUpload accepted commit_tail commitFailed
  generate_begin generate_done
  handleDatasetReset_begin handleDatasetReset_afterPreview closeResetPopup
  sessionEffect_begin checkSessionDataset_afterInfo chatSwitch_afterInfo
  chatSwitch_afterPreview
  eyePreview_begin eyePreview_then previewDialog_onOpenChange : handlers.

Ltac handlers := autounfold with handlers in *; prims.

(** A segment on its own leaves the slot alone or empties it; the one
    exception is the end of a commit whose upload was accepted. *)
Lemma run_gentle g s :
  (forall c a u, g <> CommitUploadArrived c a (Ok u)) ->
  localStorage (run g s) = localStorage s \/ localStorage (run g s) = None.
Proof.
  intros N. destruct g; try (handlers; branches; auto; fail).
  destruct r as [u|e]; [now elim (N c a u)|].
  handlers. auto.
Qed.

(** The end of an accepted commit shows the committed upload and stores a
    record with the same fingerprint. *)
Lemma commit_stores c a u s :
  let s' := run (CommitUploadArrived c a (Ok u)) s in
  fileUpload s' = Some (committedUpload c a)
  /\ localStorage s' = Some (Rec (committedRecord c a)).
Proof. handlers. branches; auto. Qed.

Lemma step_written g s : writtenOnlyForSuccess s (step g s).
Proof.
  unfold writtenOnlyForSuccess, step.
  assert (localStorage (run g s) = localStorage s \/ localStorage (run g s) = None
          \/ exists fu r, fileUpload (run g s) = Some fu /\ status fu = Success
               /\ localStorage (run g s) = Some (Rec r) /\ sameFingerprint r fu) as R.
  { assert (forall g', (forall c a u, g' <> CommitUploadArrived c a (Ok u)) ->
              localStorage (run g' s) = localStorage s
              \/ localStorage (run g' s) = None
              \/ exists fu r, fileUpload (run g' s) = Some fu /\ status fu = Success
                   /\ localStorage (run g' s) = Some (Rec r) /\ sameFingerprint r fu)
      as G by (intros g' N; destruct (run_gentle s N); auto).
    destruct g; try (apply G; intros; discriminate).
    match goal with
    | |- context [CommitUploadArrived ?c ?a ?r] => destruct r as [u|e]
    end.
    - right. right. destruct (commit_stores c a u s) as [F L].
      exists (committedUpload c a), (committedRecord c a).
      repeat split; assumption.
    - apply G; intros; discriminate. }
  destruct (render_written (run g s)) as [E | [E | (fu & F & St & L)]].
  - destruct R as [R | [R | (fu & r & F & St & L & P)]].
    + left. congruence.
    + right. left. congruence.
    + right. right. exists fu, r.
      split; [now apply render_keeps_upload|]. repeat split; try apply P; congruence.
  - right. left. exact E.
  - right. right. exists fu, (fileInfo fu). repeat split; assumption.
Qed.

(** Segments that end with nothing shown and the slot emptied. *)
Lemma step_clears g s :
  fileUpload (run g s) = None -> localStorage (run g s) = None ->
  fileUpload (step g s) = None /\ localStorage (step g s) = None.
Proof. intros F L. unfold step. now apply render_idle. Qed.

(** *** The identity of the [fileUpload] object

    The effects run again when [fileUpload] is a new object.  Identities are
    handed out in increasing order, so what a segment sets is never the
    object the effects last ran for. *)
Definition handedOut (s : State) : Prop :=
  (forall n u, upload s = Some (n, u) -> n < nextId s)
  /\ (forall n, effectsSeen s = Some (Some n) -> n < nextId s).

Definition advances (s s' : State) : Prop :=
  effectsSeen s' = effectsSeen s /\ nextId s <= nextId s'
  /\ (upload s' = upload s \/ upload s' = None
      \/ exists n u, upload s' = Some (n, u) /\ nextId s <= n < nextId s').

Ltac advance :=
  repeat match goal with
         | |- context [match upload ?s with _ => _ end] =>
             destruct (upload s) as [[? ?]|] eqn:?; project
         end;
  (split; [reflexivity|]); (split; [lia|]);
  first [ left; reflexivity | right; left; reflexivity
        | right; right; eexists; eexists; split; [reflexivity|lia] ].

Lemma run_advances g s : advances s (run g s).
Proof. unfold advances. destruct g; handlers; branches; advance. Qed.

Lemma advances_handedOut s s' : advances s s' -> handedOut s -> handedOut s'.
Proof.
  intros (E & N & U) [HU HE]. split.
  - intros n u Q. destruct U as [U | [U | (m & v & U & B)]].
    + rewrite U in Q. specialize (HU n u Q). lia.
    + rewrite U in Q. discriminate Q.
    + rewrite U in Q. injection Q as <- <-. lia.
  - intros n Q. rewrite E in Q. specialize (HE n Q). lia.
Qed.

Lemma commitEffects_handedOut t : handedOut t -> handedOut (commitEffects t).
Proof.
  intros [HU HE]. unfold commitEffects. destruct (seenCurrent t); [now split|].
  unfold restoreEffect, persistEffect, handedOut. prims.
  assert (forall (n m : nat) (u v : FileUpload),
            Some (n, u) = Some (m, v) -> n = m) as Same
    by (intros n m u v Q; now injection Q).
  destruct (upload t) as [[n u]|] eqn:U; cbn.
  - specialize (HU n u eq_refl).
    destruct (status u); cbn; rewrite ?U; split; intros;
      match goal with
      | Q : Some (_, _) = Some (_, _) |- _ => apply Same in Q; subst; assumption
      | Q : Some (Some _) = Some (Some _) |- _ => injection Q as <-; assumption
      end.
  - destruct (localStorage t) as [[r|]|]; cbn;
      [ destruct (negb (optEqb storedEqb (lastUploadedFileRef t) (Some (Rec r))))
      | destruct (negb (optEqb storedEqb (lastUploadedFileRef t) (Some Corrupt)))
      | destruct (lastUploadedFileRef t) ];
      cbn; rewrite ?U; split; intros;
      match goal with
      | Q : None = Some _ |- _ => discriminate Q
      | Q : Some None = Some (Some _) |- _ => discriminate Q
      | Q : Some (_, _) = Some (_, _) |- _ => apply Same in Q; subst; lia
      end.
Qed.

Lemma render_handedOut t : handedOut t -> handedOut (render t).
Proof. intros H. unfold render. now do 2 apply commitEffects_handedOut. Qed.

Lemma steps_handedOut gs : forall s, handedOut s -> handedOut (steps gs s).
Proof.
  induction gs as [|g gs IH]; intros s H; [exact H|].
  cbn [steps]. apply IH. unfold step. apply render_handedOut.
  exact (advances_handedOut (run_advances g s) H).
Qed.

Lemma mounted_handedOut stored mounted : handedOut (render (initial stored mounted)).
Proof. apply render_handedOut. split; intros ? ?; try intros ?; discriminate. Qed.

(** A new object has not been seen by the effects. *)
Lemma changed_unseen s s' fu :
  handedOut s -> advances s s' -> fileUpload s' = Some fu -> upload s' <> upload s ->
  seenCurrent s' = false.
Proof.
  intros [_ HE] (E & N & U) F C.
  destruct U as [U | [U | (n & u & U & B)]]; [now elim C | |].
  - unfold fileUpload in F. rewrite U in F. discriminate F.
  - unfold seenCurrent, fileUploadId. rewrite E, U. cbn.
    destruct (effectsSeen s) as [[m|]|] eqn:Q; cbn; try reflexivity.
    specialize (HE m eq_refl). apply Nat.eqb_neq. lia.
Qed.

(** C1 (amended).  The record under [lastUploadedFile] is written only for a
    successful upload shown in memory: after any segment of any handler the
    slot is as it was, empty, or holds a record with the name, type and
    modification time of the file of [fileUpload], whose status is success.
    The explicit reset empties the slot, and so does finding that the server
    has no custom dataset (chat switch; checkSessionDataset with no upload
    shown).  And the record is written, commit or not: the persist effect
    stores the fingerprint of a successful upload at the render for which it
    has not run yet; so after the mount and any sequence of segments, a
    segment that leaves a new [fileUpload] object with status success has
    its fingerprint stored by the render that follows; a page that mounts
    with a record restores the upload and stores its fingerprint; and the
    end of an accepted commit writes the record itself. *)
Theorem C1_record_written_only_for_success :
  (forall g s, writtenOnlyForSuccess s (step g s))
  /\ (forall c s, localStorage (step (ResetAnswered c false) s) = None)
  /\ (forall c now n d s,
        localStorage (step (ChatInfoArrived c now (Ok (mkSessionInfo false n d))) s) = None)
  /\ (forall dd sid sp gen now n d s,
        localStorage
          (step (CheckInfoArrived (mkClosure None dd sid sp gen) now
                   (Ok (mkSessionInfo false n d))) s) = None)
  /\ (forall t fu,
        fileUpload t = Some fu -> status fu = Success -> seenCurrent t = false ->
        localStorage (render t) = Some (Rec (fileInfo fu)))
  /\ (forall stored mounted gs g fu,
        let s := steps gs (render (initial stored mounted)) in
        fileUpload (run g s) = Some fu -> status fu = Success ->
        upload (run g s) <> upload s ->
        localStorage (step g s) = Some (Rec (fileInfo fu)))
  /\ (forall r mounted,
        localStorage (render (initial (Some (Rec r)) mounted))
        = Some (Rec (fileInfo (freshUpload (mockFile r) Success))))
  /\ (forall c a u s,
        localStorage (run (CommitUploadArrived c a (Ok u)) s)
        = Some (Rec (committedRecord c a))).
Proof.
  split; [exact step_written|].
  do 3 (split; [intros; apply step_clears; handlers; branches; reflexivity|]).
  split; [exact render_persists|].
  split; [|split].
  - intros stored mounted gs g fu s F St C. unfold step.
    apply render_persists; [exact F | exact St |].
    apply (@changed_unseen s (run g s) fu); try assumption.
    + subst s. apply steps_handedOut, mounted_handedOut.
    + apply run_advances.
  - intros r mounted. destruct mounted; reflexivity.
  - intros c a u s. apply (commit_stores c a u s).
Qed.

(** An Excel file is chosen on a fresh page and its sheets are listed: no
    commit has happened, no upload request was sent, and the record is
    written. *)
Definition bookFile : File := mkFile "book.xlsx" "" 300 1700000000001.

Definition freshPage : State := render (initial None true).

Lemma C1_counterexample :
  let s' := steps [FileChosen (closureOf freshPage) bookFile;
                   SheetsArrived bookFile (Ok ["Sheet1"; "Sheet2"])] freshPage in
  localStorage freshPage = None
  /\ localStorage s' = Some (Rec (mkRecord "book.xlsx" "" 1700000000001 None None))
  /\ calls s' = [ExcelSheets bookFile].
Proof. vm_compute. repeat split. Qed.

(** The same selection, through the theorem: listing the sheets leaves a new
    object with status success, and the render stores its fingerprint. *)
Lemma C1_witness :
  localStorage
    (step (SheetsArrived bookFile (Ok ["Sheet1"; "Sheet2"]))
       (steps [FileChosen (closureOf freshPage) bookFile] (render (initial None true))))
  = Some (Rec (mkRecord "book.xlsx" "" 1700000000001 None None)).
Proof.
  destruct C1_record_written_only_for_success as (_ & _ & _ & _ & _ & Changed & _).
  refine (Changed None true [FileChosen (closureOf freshPage) bookFile]
            (SheetsArrived bookFile (Ok ["Sheet1"; "Sheet2"]))
            (mkFileUpload bookFile Success None (Some true) (Some ["Sheet1"; "Sheet2"])
               (Some "Sheet1") None) _ _ _);
    [vm_compute; reflexivity | reflexivity | vm_compute; discriminate].
Defined.

(** ** Failures and their timeouts *)

Lemma find_withoutTimer id l :
  find (fun t => (tid t =? id)%nat) (withoutTimer id l) = None.
Proof.
  induction l as [|t l IH]; cbn; [reflexivity|].
  destruct (tid t =? id)%nat eqn:E; cbn; [exact IH | now rewrite E].
Qed.

(** The timeout set last is the one that fires under its identifier. *)
Lemma fireTimer_head id d a l s :
  timers s = mkTimer id d a :: l -> fireTimer id s = runTimer a (clearTimeout id s).
Proof.
  intros T. unfold fireTimer. rewrite T. cbn. now rewrite Nat.eqb_refl.
Qed.

(** A failed upload is not stored again by a render. *)
Lemma render_failed t fu :
  fileUpload t = Some fu -> status fu <> Success ->
  localStorage (render t) = localStorage t.
Proof.
  intros F St.
  assert (forall u, fileUpload u = Some fu ->
                    localStorage (commitEffects u) = localStorage u) as One.
  { intros u Fu. unfold commitEffects. destruct (seenCurrent u); [reflexivity|].
    unfold restoreEffect, persistEffect. prims.
    destruct (upload u) as [[n x]|]; [|discriminate]. cbn in *.
    injection Fu as ->. destruct (status fu); [reflexivity|now elim St|reflexivity]. }
  unfold render. rewrite One; [now apply One | now apply commitEffects_keeps_upload].
Qed.

(** The failure is shown on the chip, and the pending timeout registered in
    [errorTimeoutRef] will, after 5000 ms, take the chip and the record away. *)
Definition failsAndClears (s' : State) : Prop :=
  exists fu m id l,
    fileUpload s' = Some fu /\ status fu = Failed /\ errorMessage fu = Some m
    /\ errorTimeoutRef s' = Some id
    /\ timers s' = mkTimer id 5000 ClearUploadAndNotice :: l
    /\ fileUpload (step (TimerFired id) s') = None
    /\ localStorage (step (TimerFired id) s') = None
    /\ errorNotification (step (TimerFired id) s') = None.

(** The failure is shown on the chip with the message of [e]; the pending
    timeout only dismisses the notice and leaves chip and record as they
    are. *)
Definition failsAndKeeps (e : Error) (s' : State) : Prop :=
  exists fu id l,
    fileUpload s' = Some fu /\ status fu = Failed
    /\ errorMessage fu = Some (getErrorMessage e)
    /\ errorTimeoutRef s' = Some id
    /\ timers s' = mkTimer id 5000 ClearNotice :: l
    /\ fileUpload (step (TimerFired id) s') = Some fu
    /\ localStorage (step (TimerFired id) s') = localStorage s'
    /\ errorNotification (step (TimerFired id) s') = None.

(** Read a field that rendering leaves alone. *)
Ltac through_render :=
  repeat match goal with
  | |- context [render ?t] =>
      lazymatch goal with
      | _ : untouched t (render t) |- _ => fail
      | _ => pose proof (render_untouched t)
      end
  end;
  unfold untouched in *;
  repeat match goal with H : _ /\ _ |- _ => destruct H end;
  cbn in *; congruence.

Lemma clearing_timeout_fires id l s :
  timers s = mkTimer id 5000 ClearUploadAndNotice :: l ->
  fileUpload (step (TimerFired id) s) = None
  /\ localStorage (step (TimerFired id) s) = None
  /\ errorNotification (step (TimerFired id) s) = None.
Proof.
  intros T. unfold step, run. rewrite (fireTimer_head s T). cbn [runTimer].
  match goal with |- context [render ?t] =>
    destruct (render_idle t) as [A B]; [reflexivity | reflexivity |] end.
  split; [exact A|]. split; [exact B|]. through_render.
Qed.

Lemma notice_timeout_fires id l s fu :
  timers s = mkTimer id 5000 ClearNotice :: l ->
  fileUpload s = Some fu -> status fu = Failed ->
  fileUpload (step (TimerFired id) s) = Some fu
  /\ localStorage (step (TimerFired id) s) = localStorage s
  /\ errorNotification (step (TimerFired id) s) = None.
Proof.
  intros T F St. unfold step, run. rewrite (fireTimer_head s T). cbn [runTimer].
  split; [apply render_keeps_upload; exact F|].
  split; [|through_render].
  rewrite (@render_failed _ fu); [reflexivity | exact F | congruence].
Qed.

Lemma rejected_failsAndClears c f s :
  rejected f = true -> failsAndClears (handleFileSelect_begin c f s).
Proof.
  intros R. unfold failsAndClears, handleFileSelect_begin. rewrite R.
  do 4 eexists.
  repeat (split; [reflexivity|]).
  eapply clearing_timeout_fires. reflexivity.
Qed.

Lemma sheets_failsAndClears r s :
  fileUpload s <> None -> (r = Ok [] \/ exists e, r = Err e) ->
  failsAndClears (handleFileSelect_afterSheets r s).
Proof.
  intros F R. unfold failsAndClears.
  assert (exists e, handleFileSelect_afterSheets r s = sheetsFailed e s) as [e ->]
    by (destruct R as [->|[e ->]]; eexists; reflexivity).
  unfold fileUpload in F. destruct (upload s) as [[n p]|] eqn:U; [|now elim F].
  exists (failWith ("Excel error: " ++ getErrorMessage e) p).
  do 3 eexists.
  split; [unfold sheetsFailed; prims; rewrite U; reflexivity|].
  repeat (split; [reflexivity|]).
  eapply clearing_timeout_fires. reflexivity.
Qed.

(** Any of the four places where an upload or a preview request fails. *)
Lemma preview_failsAndKeeps title1 title2 m1 m2 e s :
  fileUpload s <> None ->
  failsAndKeeps e
    (s |> consoleError m1 |> previewCatch title1 e
       |> consoleError m2 |> previewCatch title2 e).
Proof.
  intros F. unfold failsAndKeeps.
  unfold fileUpload in F. destruct (upload s) as [[n p]|] eqn:U; [|now elim F].
  exists (failWith (getErrorMessage e) (failWith (getErrorMessage e) p)).
  do 2 eexists.
  split; [unfold previewCatch; prims; rewrite U; reflexivity|].
  repeat (split; [reflexivity|]).
  eapply notice_timeout_fires;
    [reflexivity | unfold previewCatch; prims; rewrite U; reflexivity | reflexivity].
Qed.

(** A new file selection cancels the timeout registered in
    [errorTimeoutRef]: it cannot fire any more. *)
Lemma selection_supersedes c f s id :
  errorTimeoutRef s = Some id -> id < nextTimer s ->
  fireTimer id (run (FileChosen c f) s) = run (FileChosen c f) s.
Proof.
  intros E Lt.
  assert ((nextTimer s =? id)%nat = false) as Ne by (apply Nat.eqb_neq; lia).
  assert (find (fun x => (tid x =? id)%nat) (timers (run (FileChosen c f) s)) = None)
    as Gone.
  { handlers. rewrite E. branches;
      cbn [find tid]; rewrite ?Ne; apply find_withoutTimer. }
  unfold fireTimer. now rewrite Gone.
Qed.

(** C2 (amended).  A rejected file type and a failed sheet enumeration set
    the status to error with a message and leave a 5000 ms timeout pending
    that, when it fires, unsets FileUpload and removes the persisted record;
    a new file selection before that cancels it.  A failed upload or preview
    request (CSV or Excel sheet) sets the status to error with the message
    of the failure and leaves a 5000 ms timeout pending that only dismisses
    the notice: FileUpload and the record stay as they are. *)
Theorem C2_failures_and_timeouts :
  (forall c f s, rejected f = true -> failsAndClears (run (FileChosen c f) s))
  /\ (forall f r s, fileUpload s <> None -> (r = Ok [] \/ exists e, r = Err e) ->
        failsAndClears (run (SheetsArrived f r) s))
  /\ (forall c f n sh u e s, fileUpload s <> None ->
        failsAndKeeps e (run (PreviewUploadArrived c f n (Err e)) s)
        /\ failsAndKeeps e (run (PreviewArrived c f n u (Err e)) s)
        /\ failsAndKeeps e (run (SheetUploadArrived c f sh (Err e)) s)
        /\ failsAndKeeps e (run (SheetPreviewArrived c f sh n u (Err e)) s))
  /\ (forall c f s id, errorTimeoutRef s = Some id -> id < nextTimer s ->
        fireTimer id (run (FileChosen c f) s) = run (FileChosen c f) s).
Proof.
  split; [|split; [|split]].
  - intros c f s R. now apply rejected_failsAndClears.
  - intros f r s F R. now apply sheets_failsAndClears.
  - intros c f n sh u e s F.
    unfold run, handleFilePreview_afterUpload, handleFilePreview_afterPreview,
      handleExcelSheetPreview_afterUpload, handleExcelSheetPreview_afterPreview,
      filePreviewFailed, excelPreviewFailed.
    split; [|split; [|split]]; apply preview_failsAndKeeps; exact F.
  - exact selection_supersedes.
Qed.

Definition salesFile : File := mkFile "sales.csv" "text/csv" 120 1700000000000.

Definition notesFile : File := mkFile "notes.pdf" "application/pdf" 10 1700000000002.

Definition networkError : Error := AxiosError None "Network Error".

Lemma C2_witness :
  failsAndClears (run (FileChosen (closureOf freshPage) notesFile) freshPage)
  /\ failsAndClears
       (run (SheetsArrived bookFile (Ok []))
          (step (FileChosen (closureOf freshPage) bookFile) freshPage))
  /\ failsAndKeeps networkError
       (run (PreviewUploadArrived (closureOf freshPage) salesFile true (Err networkError))
          (step (FileChosen (closureOf freshPage) salesFile) freshPage))
  /\ fireTimer 0
       (run (FileChosen (closureOf freshPage) salesFile)
          (step (FileChosen (closureOf freshPage) notesFile) freshPage))
     = run (FileChosen (closureOf freshPage) salesFile)
         (step (FileChosen (closureOf freshPage) notesFile) freshPage).
Proof.
  destruct C2_failures_and_timeouts as (A & B & C & D).
  split; [apply A; vm_compute; reflexivity|].
  split; [apply B; [vm_compute; discriminate | left; reflexivity]|].
  split.
  { assert (fileUpload (step (FileChosen (closureOf freshPage) salesFile) freshPage)
            <> None) as F by (vm_compute; discriminate).
    exact (proj1 (C (closureOf freshPage) salesFile true ""
                    (mkUploadData 200 None None) networkError _ F)). }
  apply D; [vm_compute; reflexivity | vm_compute; lia].
Defined.

(** A CSV file is uploaded and previewed; later the eye button previews it
    again and the upload request fails.  The status is error; every pending
    timeout fires; the chip and the record are still there. *)
Definition salesUploaded : State :=
  let c := closureOf freshPage in
  let u := mkUploadData 200 (Some "sess1") (Some 7%Z) in
  steps [FileChosen c salesFile;
         PreviewUploadArrived c salesFile true (Ok u);
         PreviewArrived c salesFile true u
           (Ok (mkPreviewData ["region"; "amount"] [["north"; "10"]] "sales" ""));
         SelectPreviewReturned;
         TimerFired 0] freshPage.

Definition previewFailedAgain : State :=
  let c := closureOf salesUploaded in
  steps [EyeClicked c;
         PreviewResetArrived c salesFile false (Ok tt);
         PreviewUploadArrived c salesFile false (Err networkError);
         EyeReturned c] salesUploaded.

Lemma C2_counterexample :
  let s := steps [TimerFired 1; TimerFired 2] previewFailedAgain in
  option_map status (fileUpload previewFailedAgain) = Some Failed
  /\ map tid (timers previewFailedAgain) = [2; 1]
  /\ timers s = []
  /\ option_map status (fileUpload s) = Some Failed
  /\ localStorage s = Some (Rec (mkRecord "sales.csv" "text/csv" 1700000000000 None None)).
Proof. vm_compute. repeat split. Qed.

(** ** Mismatch between the session and what the page shows *)

Lemma reset_clears_mismatch c keep rReset rUpload rPreview rFetch s :
  datasetMismatch (handleDatasetReset c keep rReset rUpload rPreview rFetch s) = false
  /\ showDatasetResetPopup (handleDatasetReset c keep rReset rUpload rPreview rFetch s)
     = false.
Proof.
  unfold handleDatasetReset.
  assert (forall t,
            datasetMismatch t = false -> showDatasetResetPopup t = false ->
            datasetMismatch (defaultDataset_afterFetch true rFetch t) = false
            /\ showDatasetResetPopup (defaultDataset_afterFetch true rFetch t) = false)
    as Fetch by (intros t M P; destruct rFetch; cbn; auto).
  assert (forall t,
            datasetMismatch t = false -> showDatasetResetPopup t = false ->
            datasetMismatch (render (defaultDataset_afterReset c true rReset (render t)))
              = false
            /\ showDatasetResetPopup
                 (render (defaultDataset_afterReset c true rReset (render t))) = false)
    as Reset.
  { intros t M P. destruct rReset; unfold defaultDataset_afterReset; prims;
      split; through_render. }
  destruct (keptRealFile c keep) as [f|] eqn:K; [split; reflexivity|].
  unfold keptRealFile in K.
  destruct (c_fileUpload c) as [fu|] eqn:F.
  - destruct keep; cbn in K.
    + unfold handleDatasetReset_begin. rewrite F.
      destruct (fsize (file fu) =? 0)%N; [|discriminate].
      destruct (fileInputRef (removeItem (setFileUpload None s))); split; reflexivity.
    + apply Fetch; apply Reset;
        unfold handleDatasetReset_begin; rewrite F; reflexivity.
  - apply Fetch; apply Reset; unfold handleDatasetReset_begin; rewrite F; reflexivity.
Qed.

(** C3 (amended).  When checkSessionDataset finds a custom dataset on the
    server, no stored record and no upload shown (case B), it shows a
    placeholder upload with status success and sets the mismatch flag; when
    it finds no custom dataset on the server while a successful upload is
    shown (case C), it sets the mismatch flag and opens the reset popup and
    leaves the upload as it is.  The answer to the popup clears the flag and
    closes the popup, whichever way it goes. *)
Theorem C3_mismatch_flag :
  (forall dd sid sp gen now info s,
      is_custom_dataset info = true -> localStorage s = None ->
      let s' := step (CheckInfoArrived (mkClosure None dd sid sp gen) now (Ok info)) s in
      datasetMismatch s' = true
      /\ fileUpload s' = Some (freshUpload (placeholderFile (dataset_name info) now) Success))
  /\ (forall c fu now info s,
      c_fileUpload c = Some fu -> status fu = Success -> is_custom_dataset info = false ->
      let s' := step (CheckInfoArrived c now (Ok info)) s in
      datasetMismatch s' = true /\ showDatasetResetPopup s' = true
      /\ upload (run (CheckInfoArrived c now (Ok info)) s) = upload s)
  /\ (forall c keep rReset rUpload rPreview rFetch s,
      let s' := handleDatasetReset c keep rReset rUpload rPreview rFetch s in
      datasetMismatch s' = false /\ showDatasetResetPopup s' = false).
Proof.
  split; [|split].
  - intros dd sid sp gen now info s Custom L s'. subst s'. unfold step, run.
    unfold checkSessionDataset_afterInfo. rewrite Custom. cbn [c_fileUpload].
    rewrite L. split; [through_render|].
    apply render_keeps_upload. reflexivity.
  - intros c fu now info s F St Custom s'. subst s'. unfold step, run.
    unfold checkSessionDataset_afterInfo. rewrite Custom, F, St.
    split; [through_render|]. split; [through_render|reflexivity].
  - intros. apply reset_clears_mismatch.
Qed.

Lemma C3_witness :
  (let s' := step (CheckInfoArrived (closureOf freshPage) 1700000000500
                     (Ok (mkSessionInfo true "orders" ""))) freshPage in
   datasetMismatch s' = true
   /\ fileUpload s' =
        Some (freshUpload (placeholderFile "orders" 1700000000500) Success))
  /\ (let s' := step (CheckInfoArrived (closureOf salesUploaded) 1700000000500
                        (Ok (mkSessionInfo false "" ""))) salesUploaded in
      datasetMismatch s' = true /\ showDatasetResetPopup s' = true
      /\ upload (run (CheckInfoArrived (closureOf salesUploaded) 1700000000500
                        (Ok (mkSessionInfo false "" ""))) salesUploaded)
         = upload salesUploaded).
Proof.
  destruct C3_mismatch_flag as (B & C & _).
  split.
  - apply (B (mkDescription "" "") None false false); vm_compute; reflexivity.
  - apply (C (closureOf salesUploaded)
             (mkFileUpload salesFile Success None (Some false) None None (Some 7%Z)));
      vm_compute; reflexivity.
Defined.

(** The server lost the custom dataset while [sales.csv] is shown: the flag
    is set and the popup opens.  The popup is closed without an answer and
    another file is chosen, uploaded and previewed: the status goes through
    loading back to success while the flag is still set.  On a fresh page,
    case B sets the flag and the status success in one go. *)
Definition otherFile : File := mkFile "other.csv" "text/csv" 64 1700000000003.

Definition mismatchFlagged : State :=
  step (CheckInfoArrived (closureOf salesUploaded) 1700000000500
          (Ok (mkSessionInfo false "" ""))) salesUploaded.

Lemma C3_counterexample :
  let c := closureOf (step ResetPopupClosed mismatchFlagged) in
  let u := mkUploadData 200 (Some "sess2") (Some 8%Z) in
  let chosen := steps [ResetPopupClosed; FileChosen c otherFile] mismatchFlagged in
  let s := steps [PreviewResetArrived c otherFile true (Ok tt);
                  PreviewUploadArrived c otherFile true (Ok u);
                  PreviewArrived c otherFile true u
                    (Ok (mkPreviewData ["k"] [["1"]] "other" ""));
                  SelectPreviewReturned] chosen in
  let b := step (CheckInfoArrived (closureOf freshPage) 1700000000500
                   (Ok (mkSessionInfo true "orders" ""))) freshPage in
  datasetMismatch mismatchFlagged = true
  /\ option_map status (fileUpload chosen) = Some Loading
  /\ option_map status (fileUpload s) = Some Success
  /\ option_map (fun x => fname (file x)) (fileUpload s) = Some "other.csv"
  /\ datasetMismatch s = true
  /\ datasetMismatch b = true
  /\ option_map status (fileUpload b) = Some Success.
Proof. vm_compute. repeat split. Qed.

(** ** The commit *)

(** C9.  With an empty name or an empty description the commit only shows
    the "Missing information" notice and leaves a timeout for it: no request
    is sent, no alert is shown, and the upload, the preview, the description,
    the session and the persisted record are what they were. *)
Theorem C9_missing_metadata_refused c rReset rUpload s :
  name (c_datasetDescription c) = "" \/ description (c_datasetDescription c) = "" ->
  let s' := handleUploadWithDescription c rReset rUpload s in
  calls s' = calls s /\ alerts s' = alerts s
  /\ upload s' = upload s /\ filePreview s' = filePreview s
  /\ datasetDescription s' = datasetDescription s
  /\ localStorage s' = localStorage s /\ lastUploadedFileRef s' = lastUploadedFileRef s
  /\ showPreview s' = showPreview s /\ sessionId s' = sessionId s
  /\ uploadSuccess s' = uploadSuccess s /\ fileInputRef s' = fileInputRef s
  /\ errorNotification s' =
       Some (mkNotification "Missing information"
               (Some "Please provide both a name and description for the dataset"))
  /\ run (CommitClicked c) s = s'.
Proof.
  intros H s'. subst s'.
  assert (missingMetadata c = true) as M.
  { unfold missingMetadata, Js.truthy. destruct H as [-> | ->]; cbn;
      [reflexivity | apply orb_true_r]. }
  unfold handleUploadWithDescription, run, commit_begin. rewrite M.
  repeat split.
Qed.

Lemma C9_witness :
  let c := mkClosure (fileUpload salesUploaded) (mkDescription "Sales" "")
             (Some "sess1") true false in
  let s' := handleUploadWithDescription c (Ok tt)
              (Ok (mkUploadData 200 None None)) salesUploaded in
  calls s' = calls salesUploaded /\ localStorage s' = localStorage salesUploaded.
Proof.
  intros c s'.
  destruct (@C9_missing_metadata_refused c (Ok tt) (Ok (mkUploadData 200 None None))
              salesUploaded (or_intror eq_refl))
    as (A & _ & _ & _ & _ & B & _).
  split; [exact A | exact B].
Defined.

Lemma refuseMockFile_outcome s :
  calls (refuseMockFile s) = calls s
  /\ alerts (refuseMockFile s) = AlertSelectAgain :: alerts s
  /\ fileUpload (refuseMockFile s) = None /\ localStorage (refuseMockFile s) = None
  /\ showPreview (refuseMockFile s) = false.
Proof.
  unfold refuseMockFile. cbv zeta.
  match goal with |- context [match ?x with _ => _ end] => destruct x end;
    repeat split.
Qed.

(** C5 (amended).  With a name and a description, no file in the file input,
    and a shown upload whose file has no bytes and no modification time, the
    commit asks to select the file again, unsets the upload, removes the
    record and closes the dialog; no request is sent, whatever the backend
    would have answered. *)
Theorem C5_stale_handle c fu rReset rUpload s :
  missingMetadata c = false ->
  inputFile s = None ->
  c_fileUpload c = Some fu ->
  fsize (file fu) = 0%N -> flastModified (file fu) = 0%Z ->
  let s' := handleUploadWithDescription c rReset rUpload s in
  calls s' = calls s
  /\ alerts s' = AlertSelectAgain :: alerts s
  /\ fileUpload s' = None /\ localStorage s' = None
  /\ showPreview s' = false
  /\ fileUpload (render s') = None /\ localStorage (render s') = None
  /\ calls (render s') = calls s.
Proof.
  intros M I F Sz Lm s'. subst s'.
  unfold handleUploadWithDescription. rewrite M.
  set (s0 := clearErrorTimeout (setErrorNotification None s)).
  assert (inputFile s0 = None) as I' by exact I.
  assert (actualFile c s0 = Some (file fu)) as A
    by (unfold actualFile; rewrite I', F; reflexivity).
  assert (isMockFile (file fu) s0 = true) as Mock
    by (unfold isMockFile; rewrite I', Sz, Lm; reflexivity).
  rewrite A, Mock.
  destruct (refuseMockFile_outcome s0) as (C & Al & Fu & Ls & Sp).
  destruct (render_idle _ Fu Ls) as [Fu' Ls'].
  repeat (split; [assumption|]).
  destruct (render_untouched (refuseMockFile s0)) as (R & _).
  rewrite R. exact C.
Qed.

Definition ghostFile : File := mkFile "sales.csv" "text/csv" 0 0.

Definition ghostShown : State :=
  setDatasetDescription (mkDescription "Sales" "Q1 sales")
    (setFileUpload (Some (freshUpload ghostFile Success)) freshPage).

Lemma C5_witness :
  let s' := handleUploadWithDescription (closureOf ghostShown) (Ok tt)
              (Ok (mkUploadData 200 None None)) ghostShown in
  calls s' = [] /\ alerts s' = [AlertSelectAgain] /\ fileUpload s' = None.
Proof.
  intros s'.
  destruct (@C5_stale_handle (closureOf ghostShown) (freshUpload ghostFile Success)
              (Ok tt) (Ok (mkUploadData 200 None None)) ghostShown
              eq_refl eq_refl eq_refl eq_refl eq_refl)
    as (A & B & C & _).
  split; [exact A|]. split; [exact B | exact C].
Defined.

(** An empty file dated at the epoch is chosen in the file input, previewed,
    described and committed: its handle has no bytes and no modification
    time, and the commit uploads it. *)
Definition emptyFile : File := mkFile "empty.csv" "text/csv" 0 0.

Definition emptyPreviewed : State :=
  let c := closureOf freshPage in
  let u := mkUploadData 200 None None in
  steps [FileChosen c emptyFile;
         PreviewUploadArrived c emptyFile true (Ok u);
         PreviewArrived c emptyFile true u (Ok (mkPreviewData [] [] "empty" ""));
         SelectPreviewReturned;
         DescriptionEdited "nothing yet"] freshPage.

Lemma C5_counterexample :
  let s' := render (handleUploadWithDescription (closureOf emptyPreviewed) (Ok tt)
                      (Ok (mkUploadData 200 None None)) emptyPreviewed) in
  option_map (fun u => (fsize (file u), flastModified (file u)))
    (fileUpload emptyPreviewed) = Some (0%N, 0%Z)
  /\ hd_error (calls s') = Some (UploadDataframe emptyFile "empty" "nothing yet")
  /\ alerts s' = []
  /\ option_map status (fileUpload s') = Some Success.
Proof. vm_compute. repeat split. Qed.

(** ** Selecting a new file *)

Lemma selection_independent c f s1 s2 :
  fileUpload (run (FileChosen c f) s1) = fileUpload (run (FileChosen c f) s2).
Proof. handlers. branches; reflexivity. Qed.

Lemma selection_fresh c f s :
  exists fu, fileUpload (run (FileChosen c f) s) = Some fu
             /\ file fu = f /\ sheets fu = None /\ selectedSheet fu = None
             /\ dataset_upload_id fu = None.
Proof.
  handlers. branches; eexists; repeat split.
Qed.

(** C6 (amended).  Selecting a file replaces FileUpload wholesale: what is
    shown after the selection is an upload of the selected file without
    sheets, selected sheet or upload id, and does not depend on the state
    before; unless the file is rejected, the persisted record is removed.
    FilePreview and DatasetDescription are not touched by the selection;
    they are overwritten, name and description included, when the preview of
    the new file arrives. *)
Theorem C6_selection_replaces_upload :
  (forall c f s1 s2,
      fileUpload (run (FileChosen c f) s1) = fileUpload (run (FileChosen c f) s2))
  /\ (forall c f s,
      exists fu, fileUpload (run (FileChosen c f) s) = Some fu
                 /\ file fu = f /\ sheets fu = None /\ selectedSheet fu = None
                 /\ dataset_upload_id fu = None)
  /\ (forall c f s,
      localStorage (run (FileChosen c f) s) = if rejected f then localStorage s else None)
  /\ (forall c f s,
      filePreview (run (FileChosen c f) s) = filePreview s
      /\ datasetDescription (run (FileChosen c f) s) = datasetDescription s)
  /\ (forall c f u p s,
      let s' := run (PreviewArrived c f true u (Ok p)) s in
      filePreview s' =
        Some (mkFilePreview (p_headers p) (p_rows p)
                (Js.orElse (p_name p) (tempName f)) guidance)
      /\ datasetDescription s' =
           mkDescription (Js.orElse (p_name p) (tempName f)) guidance)
  /\ (forall c f sh u p s,
      let s' := run (SheetPreviewArrived c f sh true u (Ok p)) s in
      filePreview s' =
        Some (mkFilePreview (p_headers p) (p_rows p)
                (Js.orElse (p_name p) (excelTempName f sh)) guidance)
      /\ datasetDescription s' =
           mkDescription (Js.orElse (p_name p) (excelTempName f sh)) guidance).
Proof.
  split; [exact selection_independent|].
  split; [exact selection_fresh|].
  split; [intros; handlers; branches; reflexivity|].
  split; [intros; handlers; branches; split; reflexivity|].
  split; intros; handlers; branches; split; reflexivity.
Qed.

(** [sales.csv] was uploaded and previewed; then [book.xlsx] is chosen and
    its sheets are listed.  The chip is the new file's, and the preview and
    the description are still those of [sales.csv]. *)
Lemma C6_counterexample :
  let c := closureOf salesUploaded in
  let s := steps [FileChosen c bookFile;
                  SheetsArrived bookFile (Ok ["Sheet1"; "Sheet2"])] salesUploaded in
  option_map (fun u => fname (file u)) (fileUpload s) = Some "book.xlsx"
  /\ option_map status (fileUpload s) = Some Success
  /\ filePreview s =
       Some (mkFilePreview ["region"; "amount"] [["north"; "10"]] "sales" guidance)
  /\ name (datasetDescription s) = "sales".
Proof. vm_compute. repeat split. Qed.

(** ** The default dataset *)

Lemma defaultDataset_afterReset_frame c show r x :
  fileUpload (defaultDataset_afterReset c show r x) = fileUpload x
  /\ localStorage (defaultDataset_afterReset c show r x) = localStorage x.
Proof. destruct r; split; reflexivity. Qed.

Lemma defaultDataset_stays_cleared c show rReset s :
  let t := render (defaultDataset_afterReset c show rReset
                     (render (defaultDataset_begin c s))) in
  fileUpload t = None /\ localStorage t = None.
Proof.
  intros t. subst t.
  assert (fileUpload (defaultDataset_begin c s) = None
          /\ localStorage (defaultDataset_begin c s) = None) as [F0 L0]
    by (split; reflexivity).
  destruct (render_idle _ F0 L0) as [F L].
  apply render_idle.
  - rewrite (proj1 (defaultDataset_afterReset_frame c show rReset _)). exact F.
  - rewrite (proj2 (defaultDataset_afterReset_frame c show rReset _)). exact L.
Qed.

(** What the page shows besides the chip. *)
Definition shown (s : State) :=
  (filePreview s, datasetDescription s, showPreview s, showSheetSelector s,
   datasetMismatch s, showDatasetResetPopup s, errorNotification s, sessionId s,
   alerts s).

Lemma render_shown t : shown (render t) = shown t.
Proof.
  pose proof (render_untouched t) as U. unfold untouched in U.
  decompose [and] U. unfold shown. congruence.
Qed.

Lemma defaultDataset_failure_shown c show rReset e s :
  shown (defaultDataset c show rReset (Err e) s) = shown s.
Proof.
  assert (forall m x, shown (consoleError m x) = shown x) as Log by reflexivity.
  assert (forall x, shown (defaultDataset_afterReset c show rReset x) = shown x) as Sent
    by (intros x; destruct rReset; reflexivity).
  assert (shown (defaultDataset_begin c s) = shown s) as Begin by reflexivity.
  unfold defaultDataset. cbn [defaultDataset_afterFetch]. unfold Basics.apply.
  rewrite Log, render_shown, Sent, render_shown. exact Begin.
Qed.

(** C7 (amended).  When the fetch of the default dataset fails, in the
    previewing and in the silent variant, the failure is logged and
    FilePreview, DatasetDescription, the dialogs, the mismatch flag, the
    notice and the session id are what they were; FileUpload and the
    persisted record were cleared before the request and stay cleared. *)
Theorem C7_default_fetch_failure c show rReset e s :
  let s' := defaultDataset c show rReset (Err e) s in
  filePreview s' = filePreview s
  /\ datasetDescription s' = datasetDescription s
  /\ showPreview s' = showPreview s
  /\ showSheetSelector s' = showSheetSelector s
  /\ datasetMismatch s' = datasetMismatch s
  /\ showDatasetResetPopup s' = showDatasetResetPopup s
  /\ errorNotification s' = errorNotification s
  /\ sessionId s' = sessionId s
  /\ alerts s' = alerts s
  /\ hd_error (console s') =
       Some (if show then "Failed to fetch dataset preview:"
             else "Failed to silently load default dataset:")
  /\ fileUpload s' = None /\ localStorage s' = None
  /\ fileUpload (render s') = None /\ localStorage (render s') = None.
Proof.
  intros s'.
  pose proof (defaultDataset_failure_shown c show rReset e s) as V.
  destruct (defaultDataset_stays_cleared c show rReset s) as [F L].
  fold s' in V. unfold shown in V. injection V as V1 V2 V3 V4 V5 V6 V7 V8 V9.
  repeat (split; [assumption|]).
  split; [reflexivity|].
  split; [exact F|]. split; [exact L|].
  apply render_idle; [exact F | exact L].
Qed.

(** [sales.csv] is shown and stored; the silent switch to the default
    dataset fails at the fetch: the chip and the record are gone. *)
Lemma C7_counterexample :
  let s' := render (handleSilentDefaultDataset (closureOf salesUploaded) (Ok tt)
                      (Err networkError) salesUploaded) in
  option_map status (fileUpload salesUploaded) = Some Success
  /\ localStorage salesUploaded =
       Some (Rec (mkRecord "sales.csv" "text/csv" 1700000000000 None None))
  /\ fileUpload s' = None /\ localStorage s' = None.
Proof. vm_compute. repeat split. Qed.

(** ** The generated description *)

Lemma generating_truthy : generating <> "".
Proof. discriminate. Qed.

(** C8.  When the generation request fails, the description becomes empty
    if it holds the "Generating description..." sentinel at that moment and
    is kept otherwise; the name is kept and the generation lock is released.
    So a failure right after the start leaves an empty description, and a
    text typed in between survives the failure. *)
Theorem C8_generation_failure_reverts_sentinel :
  (forall e s,
      let s' := run (GenerateArrived (Err e)) s in
      (description (datasetDescription s) = generating ->
       description (datasetDescription s') = "")
      /\ (description (datasetDescription s) <> generating ->
          description (datasetDescription s') = description (datasetDescription s))
      /\ (description (datasetDescription s') = "" <->
          description (datasetDescription s) = generating
          \/ description (datasetDescription s) = "")
      /\ name (datasetDescription s') = name (datasetDescription s)
      /\ isGeneratingDescription s' = false)
  /\ (forall c e s,
      Js.truthyOpt (c_sessionId c) = true ->
      description (datasetDescription
                     (steps [GenerateClicked c; GenerateArrived (Err e)] s)) = "")
  /\ (forall c e txt s,
      Js.truthyOpt (c_sessionId c) = true -> txt <> generating ->
      description (datasetDescription
                     (steps [GenerateClicked c; DescriptionEdited txt;
                             GenerateArrived (Err e)] s)) = txt).
Proof.
  assert (forall t, datasetDescription (render t) = datasetDescription t) as R.
  { intros t. pose proof (render_shown t) as V. unfold shown in V.
    injection V. auto. }
  assert (forall e t,
            description (datasetDescription (step (GenerateArrived (Err e)) t))
            = revertSentinel (description (datasetDescription t))) as Fail
    by (intros e t; unfold step; rewrite R; reflexivity).
  assert (forall txt t,
            description (datasetDescription (step (DescriptionEdited txt) t)) = txt)
    as Edit by (intros txt t; unfold step; rewrite R; reflexivity).
  assert (forall c t, Js.truthyOpt (c_sessionId c) = true ->
            description (datasetDescription (step (GenerateClicked c) t)) = generating)
    as Start.
  { intros c t T. unfold step. rewrite R. unfold run, generate_begin. rewrite T.
    reflexivity. }
  split; [|split].
  - intros e s s'. subst s'.
    change (description (datasetDescription (run (GenerateArrived (Err e)) s)))
      with (revertSentinel (description (datasetDescription s))).
    change (name (datasetDescription (run (GenerateArrived (Err e)) s)))
      with (name (datasetDescription s)).
    change (isGeneratingDescription (run (GenerateArrived (Err e)) s)) with false.
    unfold revertSentinel.
    destruct (String.eqb_spec (description (datasetDescription s)) generating)
      as [E|N].
    + repeat split; auto. intros H. now elim H.
    + repeat split; auto; try (intros; congruence).
      intros [H|H]; congruence.
  - intros c e s T. cbn [steps]. rewrite Fail, (Start c s T). reflexivity.
  - intros c e txt s T N. cbn [steps]. rewrite Fail, Edit. unfold revertSentinel.
    apply String.eqb_neq in N. rewrite N. reflexivity.
Qed.

Lemma C8_witness :
  let c := closureOf salesUploaded in
  description (datasetDescription
                 (steps [GenerateClicked c; GenerateArrived (Err networkError)]
                    salesUploaded)) = ""
  /\ description (datasetDescription
                    (steps [GenerateClicked c; DescriptionEdited "Q1 sales by region";
                            GenerateArrived (Err networkError)] salesUploaded))
     = "Q1 sales by region"
  /\ (description (datasetDescription salesUploaded) <> generating ->
      description (datasetDescription
                     (run (GenerateArrived (Err networkError)) salesUploaded))
      = description (datasetDescription salesUploaded)).
Proof.
  intros c. destruct C8_generation_failure_reverts_sentinel as (A & B & C).
  split; [apply B; vm_compute; reflexivity|].
  split; [apply C; [vm_compute; reflexivity | discriminate]|].
  exact (proj1 (proj2 (A networkError salesUploaded))).
Defined.

(** ** The sheet dialog *)

(** C10.  Dismissing the sheet dialog while no preview is open, or pressing
    its Cancel button, unsets FileUpload, removes the persisted record and
    closes the dialog; the render that follows restores nothing. *)
Theorem C10_sheet_dialog_cancelled :
  (forall c s,
      c_showPreview c = false ->
      let s' := step (SheetDialogOpenChange c false) s in
      fileUpload s' = None /\ localStorage s' = None /\ showSheetSelector s' = false)
  /\ (forall s,
      let s' := step SheetDialogCancelled s in
      fileUpload s' = None /\ localStorage s' = None /\ showSheetSelector s' = false).
Proof.
  assert (forall t, showSheetSelector (render t) = showSheetSelector t) as R.
  { intros t. pose proof (render_shown t) as V. unfold shown in V.
    injection V. auto. }
  split.
  - intros c s P s'. subst s'. unfold step, run, sheetDialog_onOpenChange.
    rewrite P. rewrite <- and_assoc. split; [apply render_idle; reflexivity|].
    rewrite R. reflexivity.
  - intros s s'. subst s'. unfold step, run, sheetDialog_cancel.
    rewrite <- and_assoc. split; [apply render_idle; reflexivity|].
    rewrite R. reflexivity.
Qed.

Definition sheetsListed : State :=
  steps [FileChosen (closureOf freshPage) bookFile;
         SheetsArrived bookFile (Ok ["Sheet1"; "Sheet2"])] freshPage.

Lemma C10_witness :
  let s' := step (SheetDialogOpenChange (closureOf sheetsListed) false) sheetsListed in
  showSheetSelector sheetsListed = true
  /\ fileUpload s' = None /\ localStorage s' = None /\ showSheetSelector s' = false.
Proof.
  intros s'. split; [vm_compute; reflexivity|].
  apply (proj1 C10_sheet_dialog_cancelled). vm_compute. reflexivity.
Defined.

(** * Further properties of the handlers *)

(** ** The record across a reload *)

(** What is stored for a successful upload brings back, on a page that
    mounts with it, an upload of the same name, type and modification time
    with an empty body and status success, and storing that again gives the
    same record. *)
Theorem persist_restore_round_trip fu mounted :
  let s := render (initial (Some (Rec (fileInfo fu))) mounted) in
  exists back,
    fileUpload s = Some back /\ status back = Success
    /\ fname (file back) = fname (file fu) /\ ftype (file back) = ftype (file fu)
    /\ flastModified (file back) = flastModified (file fu)
    /\ fsize (file back) = 0%N
    /\ fileInfo back = fileInfo fu
    /\ localStorage s = Some (Rec (fileInfo fu)).
Proof.
  exists (freshUpload (mockFile (fileInfo fu)) Success).
  destruct mounted; repeat split.
Qed.

Lemma toLongLong_exact z : inLongLong z -> toLongLong z = z.
Proof.
  unfold inLongLong, toLongLong. intros H.
  rewrite Z.mod_small by lia. lia.
Qed.

Lemma mockFile_exact r :
  inLongLong (rlastModified r) -> flastModified (mockFile r) = toLongLong (rlastModified r).
Proof. intros H. now rewrite toLongLong_exact. Qed.



(** A slot whose content does not parse is emptied at mount, the error is
    logged, and nothing is shown; an empty slot shows nothing either. *)
Theorem mount_drops_corrupt_record mounted :
  (let s := render (initial (Some Corrupt) mounted) in
   fileUpload s = None /\ localStorage s = None
   /\ console s = ["Error restoring file info:"])
  /\ (let s := render (initial None mounted) in
      fileUpload s = None /\ localStorage s = None /\ console s = []).
Proof. destruct mounted; repeat split. Qed.

(** The two effects on [fileUpload] settle: rendering a rendered state
    changes nothing. *)
Theorem render_idempotent t : render (render t) = render t.
Proof.
  unfold render at 1. rewrite render_stable. apply render_stable.
Qed.

(** While a successful upload is shown and the effects have not yet run for
    it, the render stores exactly its fingerprint. *)
Theorem render_persists_success t fu :
  fileUpload t = Some fu -> status fu = Success -> seenCurrent t = false ->
  localStorage (render t) = Some (Rec (fileInfo fu))
  /\ lastUploadedFileRef (render t) = Some (Rec (fileInfo fu))
  /\ fileUpload (render t) = Some fu.
Proof.
  intros F St Seen.
  assert (upload t <> None) as U by (unfold fileUpload in F; destruct (upload t);
                                     [discriminate | discriminate]).
  destruct (upload t) as [[n u]|] eqn:E; [|now elim U].
  assert (u = fu) as -> by (unfold fileUpload in F; rewrite E in F; now injection F).
  assert (commitEffects t
          = with_lastUploadedFileRef (Some (Rec (fileInfo fu)))
              (with_localStorage (Some (Rec (fileInfo fu)))
                 (with_effectsSeen (Some (Some n)) t))) as One.
  { unfold commitEffects. rewrite Seen. unfold restoreEffect, persistEffect.
    unfold fileUpload, fileUploadId. rewrite E. cbn [option_map snd fst]. rewrite St.
    reflexivity. }
  unfold render. rewrite One.
  assert (seenCurrent
            (with_lastUploadedFileRef (Some (Rec (fileInfo fu)))
               (with_localStorage (Some (Rec (fileInfo fu)))
                  (with_effectsSeen (Some (Some n)) t))) = true) as Seen2.
  { unfold seenCurrent, fileUploadId. cbn. rewrite E. cbn. apply Nat.eqb_refl. }
  unfold commitEffects. rewrite Seen2.
  repeat split. unfold fileUpload. cbn. rewrite E. reflexivity.
Qed.

Lemma render_persists_success_witness :
  let t := run (SheetsArrived bookFile (Ok ["Sheet1"]))
             (step (FileChosen (closureOf freshPage) bookFile) freshPage) in
  localStorage (render t)
  = Some (Rec (mkRecord "book.xlsx" "" 1700000000001 None None)).
Proof.
  intros t.
  refine (proj1 (@render_persists_success t
                   (mkFileUpload bookFile Success None (Some true) (Some ["Sheet1"])
                      (Some "Sheet1") None) _ _ _));
    vm_compute; reflexivity.
Defined.

(** ** Generating a description *)

(** Without a session id nothing is requested and nothing changes.  With
    one, the request tells whether the description of the closure was a text
    of the user (neither empty, nor the sentinel, nor "Preview dataset"), the
    description shows the sentinel and the lock is taken. *)
Theorem generate_starts c s :
  (Js.truthyOpt (c_sessionId c) = false -> run (GenerateClicked c) s = s)
  /\ (Js.truthyOpt (c_sessionId c) = true ->
      let s' := run (GenerateClicked c) s in
      calls s' = CreateDatasetDescription (c_sessionId c) (hasExistingDescription c)
                 :: calls s
      /\ description (datasetDescription s') = generating
      /\ name (datasetDescription s') = name (datasetDescription s)
      /\ isGeneratingDescription s' = true
      /\ upload s' = upload s /\ localStorage s' = localStorage s).
Proof.
  split; intros T; unfold run, generate_begin; rewrite T;
    [reflexivity | repeat split].
Qed.

Lemma generate_starts_witness :
  run (GenerateClicked (closureOf freshPage)) freshPage = freshPage
  /\ description (datasetDescription
                    (run (GenerateClicked (closureOf salesUploaded)) salesUploaded))
     = generating.
Proof.
  split.
  - apply (proj1 (generate_starts (closureOf freshPage) freshPage)).
    vm_compute. reflexivity.
  - apply (proj2 (generate_starts (closureOf salesUploaded) salesUploaded)).
    vm_compute. reflexivity.
Defined.

(** The answer of the backend replaces the description when it is not
    empty; an empty answer leaves the description as it is, so the sentinel
    stays.  Either way the name is kept and the lock is released. *)
Theorem generate_answer d s :
  let s' := run (GenerateArrived (Ok d)) s in
  (d <> "" -> description (datasetDescription s') = d)
  /\ (d = "" -> description (datasetDescription s') = description (datasetDescription s))
  /\ name (datasetDescription s') = name (datasetDescription s)
  /\ isGeneratingDescription s' = false
  /\ calls s' = calls s /\ upload s' = upload s.
Proof.
  unfold run, generate_done, Js.truthy.
  destruct (String.eqb_spec d "") as [->|N]; repeat split; intros; congruence.
Qed.

Lemma generate_answer_witness :
  let s := step (GenerateClicked (closureOf salesUploaded)) salesUploaded in
  description (datasetDescription (run (GenerateArrived (Ok "Sales by region")) s))
  = "Sales by region"
  /\ description (datasetDescription (run (GenerateArrived (Ok "")) s)) = generating.
Proof.
  intros s. split.
  - apply (proj1 (generate_answer "Sales by region" s)). discriminate.
  - rewrite (proj1 (proj2 (generate_answer "" s)) eq_refl). vm_compute. reflexivity.
Defined.

(** ** The dataset details dialog *)

(** While a description is being generated the dialog refuses to close and
    nothing changes.  Otherwise closing it hides the preview; an upload that
    is not yet a success is dropped with its record and the file input is
    emptied, a successful upload and its record are kept. *)
Theorem preview_dialog_close c s :
  (c_isGeneratingDescription c = true ->
   forall open, run (PreviewDialogOpenChange c open) s = s)
  /\ (c_isGeneratingDescription c = false ->
      let s' := run (PreviewDialogOpenChange c false) s in
      showPreview s' = false
      /\ (option_map status (c_fileUpload c) = Some Success ->
          upload s' = upload s /\ localStorage s' = localStorage s
          /\ fileInputRef s' = fileInputRef s)
      /\ (option_map status (c_fileUpload c) <> Some Success ->
          fileUpload s' = None /\ localStorage s' = None
          /\ inputFile s' = None)).
Proof.
  split.
  - intros G open. unfold run, previewDialog_onOpenChange. rewrite G.
    now rewrite andb_false_r.
  - intros G s'. subst s'. unfold run, previewDialog_onOpenChange. rewrite G.
    cbn [negb andb].
    assert (forall t, inputFile (clearFileInput t) = None) as Emptied
      by (intros t; unfold inputFile, clearFileInput; cbn;
          destruct (fileInputRef t); reflexivity).
    destruct (c_fileUpload c) as [fu|]; cbn [option_map]; [destruct (status fu)|];
      (split; [reflexivity|]); split; intros H;
      try discriminate H; try (now elim H);
      first [ now repeat split
            | split; [reflexivity|]; split; [reflexivity|]; apply Emptied ].
Qed.

Lemma preview_dialog_close_witness :
  let locked := mkClosure (fileUpload salesUploaded) (mkDescription "sales" generating)
                  (Some "sess1") true true in
  run (PreviewDialogOpenChange locked false) salesUploaded = salesUploaded
  /\ showPreview (run (PreviewDialogOpenChange (closureOf salesUploaded) false)
                    salesUploaded) = false.
Proof.
  intros locked. split.
  - apply (proj1 (preview_dialog_close locked salesUploaded)). reflexivity.
  - apply (proj2 (preview_dialog_close (closureOf salesUploaded) salesUploaded)).
    vm_compute. reflexivity.
Defined.

(** ** The preview of a file *)

Lemma render_keeps_shown t :
  fileUpload t <> None -> fileUpload (render t) = fileUpload t.
Proof.
  intros H. destruct (fileUpload t) as [fu|] eqn:F; [|now elim H].
  now apply render_keeps_upload.
Qed.





(** The preview of a new dataset always shows the guidance placeholder as
    description and leaves one timeout of 300 ms pending that will start the
    generation with the closure of the handler.  The timeout is not
    registered in [errorTimeoutRef].  When that closure has no session id,
    as on a page that had no session when the file was chosen, the timeout
    fires without any effect. *)
Theorem new_dataset_schedules_generation c f u p s :
  let s' := run (PreviewArrived c f true u (Ok p)) s in
  description (datasetDescription s') = guidance
  /\ name (datasetDescription s') = Js.orElse (p_name p) (tempName f)
  /\ timers s' = mkTimer (nextTimer s) 300 (AutoGenerate c) :: timers s
  /\ errorTimeoutRef s' = errorTimeoutRef s
  /\ sessionId s' = (if Js.truthyOpt (u_session_id u) then u_session_id u
                     else sessionId s)
  /\ (Js.truthyOpt (c_sessionId c) = false ->
      fireTimer (nextTimer s) s' = clearTimeout (nextTimer s) s').
Proof.
  unfold run, handleFilePreview_afterPreview, showPreviewOf, descriptionToUse.
  cbn [andb]. rewrite String.eqb_refl. cbn [orb].
  repeat (split; [reflexivity|]).
  intros T.
  erewrite fireTimer_head by reflexivity.
  cbn [runTimer]. unfold generate_begin. rewrite T. reflexivity.
Qed.

Lemma new_dataset_schedules_generation_witness :
  let c := closureOf freshPage in
  let u := mkUploadData 200 (Some "sess1") (Some 7%Z) in
  let s := steps [FileChosen c salesFile; PreviewUploadArrived c salesFile true (Ok u)]
             freshPage in
  let s' := run (PreviewArrived c salesFile true u
                   (Ok (mkPreviewData ["region"] [["north"]] "sales" ""))) s in
  fireTimer (nextTimer s) s' = clearTimeout (nextTimer s) s'.
Proof.
  intros c u s s'.
  refine (proj2 (proj2 (proj2 (proj2 (proj2
            (new_dataset_schedules_generation c salesFile u
               (mkPreviewData ["region"] [["north"]] "sales" "") s))))) _).
  reflexivity.
Defined.

(** Listing the sheets of an Excel file selects the first sheet, sets the
    status to success and opens the sheet dialog; it sends no request and
    opens no preview. *)
Theorem sheets_listed_selects_first f sh l fu s :
  fileUpload s = Some fu ->
  let s' := run (SheetsArrived f (Ok (sh :: l))) s in
  fileUpload s' =
    Some (mkFileUpload (file fu) Success (errorMessage fu) (isExcel fu)
            (Some (sh :: l)) (Some sh) (dataset_upload_id fu))
  /\ showSheetSelector s' = true
  /\ calls s' = calls s /\ showPreview s' = showPreview s
  /\ filePreview s' = filePreview s /\ timers s' = timers s.
Proof.
  intros F. unfold run, handleFileSelect_afterSheets.
  split; [|repeat split].
  change (fileUpload (updFileUpload (withSheets (sh :: l)) s) = Some
            (mkFileUpload (file fu) Success (errorMessage fu) (isExcel fu)
               (Some (sh :: l)) (Some sh) (dataset_upload_id fu))).
  rewrite fileUpload_updFileUpload, F. reflexivity.
Qed.

Lemma sheets_listed_selects_first_witness :
  let s := step (FileChosen (closureOf freshPage) bookFile) freshPage in
  option_map selectedSheet
    (fileUpload (run (SheetsArrived bookFile (Ok ["Summary"; "Data"])) s))
  = Some (Some "Summary").
Proof.
  intros s.
  rewrite (proj1 (@sheets_listed_selects_first bookFile "Summary" ["Data"]
                    (mkFileUpload bookFile Loading None (Some true) None None None) s
                    eq_refl)).
  reflexivity.
Defined.

(** ** A CSV selection whose upload fails *)

Lemma fileUpload_previewCatch title e x :
  fileUpload (previewCatch title e x)
  = option_map (failWith (getErrorMessage e)) (fileUpload x).
Proof.
  unfold previewCatch, fileUpload, updFileUpload. cbn.
  destruct (upload x) as [[n u]|]; reflexivity.
Qed.

Lemma fileUpload_filePreviewFailed e x :
  fileUpload (filePreviewFailed e x)
  = option_map (fun p => failWith (getErrorMessage e) (failWith (getErrorMessage e) p))
      (fileUpload x).
Proof.
  unfold filePreviewFailed.
  rewrite fileUpload_previewCatch.
  change (fileUpload (consoleError "Failed to preview file:"
                        (previewCatch "File preview failed" e
                           (consoleError "Upload error details:" x))))
    with (fileUpload (previewCatch "File preview failed" e
                        (consoleError "Upload error details:" x))).
  rewrite fileUpload_previewCatch.
  change (fileUpload (consoleError "Upload error details:" x)) with (fileUpload x).
  destruct (fileUpload x); reflexivity.
Qed.

Lemma fileUpload_handleFilePreview_begin c f n x :
  looksCsv f = true -> fileUpload (handleFilePreview_begin c f n x) = fileUpload x.
Proof.
  intros L. unfold handleFilePreview_begin. rewrite L.
  destruct (Js.truthyOpt (c_sessionId c)); reflexivity.
Qed.

Lemma fileUpload_handleFilePreview_afterReset c f n r x :
  fileUpload (handleFilePreview_afterReset c f n r x) = fileUpload x.
Proof. destruct r; reflexivity. Qed.

(** handleFilePreview catches what it rethrows, so a failed upload request
    does not reach the catch block of its caller: the chip gets the message
    of the failure twice over and the call returns normally. *)
Lemma handleFilePreview_upload_fails c f n rReset e rPreview x fu :
  looksCsv f = true -> fileUpload x = Some fu ->
  fileUpload (handleFilePreview c f n rReset (Err e) rPreview x)
  = Some (failWith (getErrorMessage e) (failWith (getErrorMessage e) fu)).
Proof.
  intros L F. unfold handleFilePreview. rewrite L. cbv zeta.
  unfold handleFilePreview_afterUpload.
  rewrite fileUpload_filePreviewFailed.
  assert (fileUpload (handleFilePreview_begin c f n x) = Some fu) as F1
    by (rewrite fileUpload_handleFilePreview_begin; assumption).
  assert (fileUpload
            (if Js.truthyOpt (c_sessionId c)
             then handleFilePreview_afterReset c f n rReset
                    (render (handleFilePreview_begin c f n x))
             else handleFilePreview_begin c f n x) = Some fu) as F2.
  { destruct (Js.truthyOpt (c_sessionId c)); [|exact F1].
    rewrite fileUpload_handleFilePreview_afterReset.
    now apply render_keeps_upload. }
  rewrite (render_keeps_upload _ F2). reflexivity.
Qed.

(** When a CSV file is selected and its upload request fails,
    handleFileSelect still reaches its last statement: the selection ends
    with status success on the chip, next to the message of the failure. *)
Theorem csv_selection_failure_ends_success c f rSheets rReset e rPreview s :
  rejected f = false -> excelFlow f = false -> looksCsv f = true ->
  fileUpload (handleFileSelect c f rSheets rReset (Err e) rPreview s)
  = Some (mkFileUpload f Success (Some (getErrorMessage e)) (Some false) None None None).
Proof.
  intros R X L. unfold handleFileSelect. rewrite R, X. cbv zeta.
  unfold handleFileSelect_afterPreview. rewrite fileUpload_updFileUpload.
  set (chip := mkFileUpload f Loading None (Some false) None None None).
  assert (fileUpload (replaceUpload f (clearErrorTimeout (setErrorNotification None s)))
          = Some chip) as F0.
  { unfold replaceUpload. rewrite X. reflexivity. }
  pose proof (@handleFilePreview_upload_fails c f true rReset e rPreview _ _ L F0) as F1.
  rewrite (render_keeps_upload _ F1). reflexivity.
Qed.

Lemma csv_selection_failure_ends_success_witness :
  option_map status
    (fileUpload (handleFileSelect (closureOf freshPage) salesFile (Ok []) (Ok tt)
                   (Err networkError) (Err networkError) freshPage))
  = Some Success.
Proof.
  rewrite (@csv_selection_failure_ends_success (closureOf freshPage) salesFile (Ok [])
             (Ok tt) networkError (Err networkError) freshPage
             eq_refl eq_refl eq_refl).
  reflexivity.
Defined.

(** Its Excel twin: handleExcelSheetPreview also catches what it rethrows,
    so when the upload of the chosen sheet fails, handleSheetSelectionConfirm
    runs on past the call: the chip ends with status success next to the
    message of the failure, and the sheet dialog is closed, not left open
    for another try. *)
Theorem sheet_confirm_failure_closes_dialog c f sh rReset e rPreview s fu :
  confirmable c = Some (f, sh) -> fileUpload s = Some fu ->
  let s' := handleSheetSelectionConfirm c rReset (Err e) rPreview s in
  fileUpload s'
  = Some (mkFileUpload (file fu) Success (Some (getErrorMessage e)) (isExcel fu)
            (sheets fu) (selectedSheet fu) (dataset_upload_id fu))
  /\ showSheetSelector s' = false.
Proof.
  intros Q F s'. subst s'. unfold handleSheetSelectionConfirm. rewrite Q.
  assert (forall x, showSheetSelector (handleSheetSelectionConfirm_afterPreview x) = false)
    as Closed by reflexivity.
  assert (forall x, fileUpload (handleSheetSelectionConfirm_afterPreview x)
                    = option_map (withStatus Success) (fileUpload x)) as Chip.
  { intros x. unfold handleSheetSelectionConfirm_afterPreview.
    apply (fileUpload_updFileUpload (withStatus Success) x). }
  assert (forall m x, fileUpload (consoleError m x) = fileUpload x) as Log by reflexivity.
  assert (forall x, fileUpload (handleExcelSheetPreview_begin c f sh true x)
                    = fileUpload x) as Begin.
  { intros x. unfold handleExcelSheetPreview_begin.
    destruct (Js.truthyOpt (c_sessionId c)); reflexivity. }
  assert (forall x, fileUpload (handleExcelSheetPreview_afterReset c f sh true rReset x)
                    = fileUpload x) as Reset
    by (intros x; destruct rReset; reflexivity).
  split; [|apply Closed]. rewrite Chip.
  set (s0 := updFileUpload (withStatus Loading) s).
  assert (fileUpload s0 = Some (withStatus Loading fu)) as F0.
  { subst s0. rewrite fileUpload_updFileUpload, F. reflexivity. }
  clearbody s0.
  assert (fileUpload (handleExcelSheetPreview_begin c f sh true s0)
          = Some (withStatus Loading fu)) as B by (rewrite Begin; exact F0).
  assert (fileUpload
            (if Js.truthyOpt (c_sessionId c)
             then handleExcelSheetPreview_afterReset c f sh true rReset
                    (render (handleExcelSheetPreview_begin c f sh true s0))
             else handleExcelSheetPreview_begin c f sh true s0)
          = Some (withStatus Loading fu)) as B2.
  { destruct (Js.truthyOpt (c_sessionId c)); [|exact B].
    rewrite Reset. apply render_keeps_upload, B. }
  assert (fileUpload (handleExcelSheetPreview c f sh true rReset (Err e) rPreview s0)
          = Some (failWith (getErrorMessage e)
                    (failWith (getErrorMessage e) (withStatus Loading fu)))) as F1.
  { unfold handleExcelSheetPreview. cbv zeta.
    unfold handleExcelSheetPreview_afterUpload, excelPreviewFailed.
    rewrite fileUpload_previewCatch, Log, fileUpload_previewCatch, Log.
    rewrite (render_keeps_upload _ B2). reflexivity. }
  rewrite (render_keeps_upload _ F1). reflexivity.
Qed.

Lemma sheet_confirm_failure_closes_dialog_witness :
  let s' := handleSheetSelectionConfirm (closureOf sheetsListed) (Ok tt)
              (Err networkError) (Err networkError) sheetsListed in
  option_map status (fileUpload s') = Some Success
  /\ showSheetSelector sheetsListed = true /\ showSheetSelector s' = false.
Proof.
  intros s'.
  assert (confirmable (closureOf sheetsListed) = Some (bookFile, "Sheet1")) as Q
    by (vm_compute; reflexivity).
  assert (exists fu, fileUpload sheetsListed = Some fu) as [fu F]
    by (vm_compute; eexists; reflexivity).
  destruct (@sheet_confirm_failure_closes_dialog (closureOf sheetsListed) bookFile
              "Sheet1" (Ok tt) networkError (Err networkError) sheetsListed fu Q F)
    as [A B].
  split; [|split; [vm_compute; reflexivity | exact B]].
  subst s'. rewrite A. reflexivity.
Defined.

(** ** The end of a commit *)

Lemma endsWith_refl s : Js.endsWith s s = true.
Proof. destruct s; cbn [Js.endsWith]; now rewrite String.eqb_refl. Qed.

Lemma endsWith_append a b : Js.endsWith (a ++ b) b = true.
Proof.
  induction a as [|ch a IH]; [apply endsWith_refl|].
  cbn [append Js.endsWith]. rewrite IH. now destruct (String.eqb _ _).
Qed.

Lemma updatedFileName_csv c : Js.endsWith (updatedFileName c) ".csv" = true.
Proof.
  unfold updatedFileName.
  destruct (Js.endsWith (name (c_datasetDescription c)) ".csv") eqn:E;
    [exact E | apply endsWith_append].
Qed.

Lemma unseen_after_set v s :
  effectsSeen s <> Some (Some (nextId s)) -> seenCurrent (setFileUpload (Some v) s) = false.
Proof.
  intros N. unfold seenCurrent, fileUploadId, setFileUpload. cbn.
  destruct (effectsSeen s) as [[n|]|]; cbn; try reflexivity.
  destruct (Nat.eqb_spec n (nextId s)) as [->|]; [now elim N | reflexivity].
Qed.

(** An accepted commit shows an upload whose file has the name of the
    dataset, with ".csv" appended unless the name ends with it (so the name
    shown always ends with ".csv"), of type text/csv, with the
    size and the modification time of the committed file and status success;
    the dialog closes and the success banner shows.  The record written by
    the commit names the selected sheet, but the render that follows stores
    the fingerprint of the new upload instead, which has no sheet. *)
Theorem commit_accepted c a u s :
  let s' := run (CommitUploadArrived c a (Ok u)) s in
  (exists fu,
      fileUpload s' = Some fu /\ status fu = Success
      /\ fname (file fu)
         = (if Js.endsWith (name (c_datasetDescription c)) ".csv"
            then name (c_datasetDescription c)
            else name (c_datasetDescription c) ++ ".csv")
      /\ Js.endsWith (fname (file fu)) ".csv" = true
      /\ ftype (file fu) = "text/csv" /\ fsize (file fu) = fsize a
      /\ flastModified (file fu) = flastModified a
      /\ selectedSheet fu = chosenSheet c
      /\ localStorage s' =
           Some (Rec (mkRecord (fname (file fu)) "text/csv" (flastModified a)
                        (Some (isExcelFile c a)) (chosenSheet c)))
      /\ (effectsSeen s <> Some (Some (nextId s)) ->
          localStorage (render s') =
            Some (Rec (mkRecord (fname (file fu)) "text/csv" (flastModified a)
                         None None))))
  /\ showPreview s' = false /\ uploadSuccess s' = true
  /\ calls s' = calls s /\ alerts s' = alerts s.
Proof.
  intros s'. subst s'.
  split; [|unfold run, commit_afterUpload, accepted, commit_tail;
           destruct (u_status u =? 200)%nat; repeat split].
  exists (committedUpload c a).
  assert (run (CommitUploadArrived c a (Ok u)) s
          = setTimeout HideUploadSuccess 3000
              (setItem (Rec (committedRecord c a))
                 (setFileUpload (Some (committedUpload c a))
                    (setUploadSuccess true (setShowPreview false (accepted u s))))))
    as Shape by reflexivity.
  split; [rewrite Shape; reflexivity|].
  split; [reflexivity|].
  split; [reflexivity|].
  split; [apply updatedFileName_csv|].
  do 4 (split; [reflexivity|]).
  split; [rewrite Shape; reflexivity|].
  intros Fresh.
  refine (@render_persists _ (committedUpload c a) _ eq_refl _).
  - rewrite Shape. reflexivity.
  - rewrite Shape.
    change (seenCurrent (setFileUpload (Some (committedUpload c a))
                           (setUploadSuccess true (setShowPreview false (accepted u s))))
            = false).
    apply unseen_after_set.
    unfold accepted. destruct (u_status u =? 200)%nat; exact Fresh.
Qed.

Lemma commit_accepted_witness :
  let c := mkClosure (fileUpload sheetsListed) (mkDescription "Book" "Two sheets")
             None false false in
  let s' := run (CommitUploadArrived c bookFile (Ok (mkUploadData 200 None None)))
              sheetsListed in
  localStorage s'
  = Some (Rec (mkRecord "Book.csv" "text/csv" 1700000000001 (Some true) (Some "Sheet1")))
  /\ localStorage (render s')
     = Some (Rec (mkRecord "Book.csv" "text/csv" 1700000000001 None None)).
Proof.
  intros c s'.
  destruct (commit_accepted c bookFile (mkUploadData 200 None None) sheetsListed)
    as ((fu & F & _ & _ & _ & _ & _ & _ & _ & L & R) & _).
  fold s' in F, L, R.
  assert (fu = committedUpload c bookFile) as ->
    by (vm_compute in F; injection F as <-; reflexivity).
  split; [exact L|].
  apply R. vm_compute. discriminate.
Defined.

(** A rejected commit changes nothing of what is shown or stored and sets
    no timeout: the failure is reported by two alerts, one after the other,
    and the dialog stays open. *)
Theorem commit_rejected c a e s :
  let s' := run (CommitUploadArrived c a (Err e)) s in
  alerts s' = AlertProcessFailed :: AlertUploadFailed e :: alerts s
  /\ upload s' = upload s /\ localStorage s' = localStorage s
  /\ shown (with_alerts (alerts s) s') = shown s
  /\ timers s' = timers s /\ uploadSuccess s' = uploadSuccess s
  /\ calls s' = calls s.
Proof. repeat split. Qed.

(** Committing with no file at all (the default dataset) sends the name and
    the description with the session reset and touches neither the chip nor
    the record; whatever the status of the answer the dialog closes and the
    banner shows, and with status 200 the session id of the answer is taken
    if there is one. *)
Theorem commit_default_dataset c u s :
  missingMetadata c = false -> c_fileUpload c = None -> inputFile s = None ->
  let s1 := run (CommitClicked c) s in
  let s2 := run (CommitUpdateArrived c (Ok u)) s1 in
  calls s1 = ResetSessionUpdate (header (c_sessionId c)) (c_datasetDescription c)
             :: calls s
  /\ upload s2 = upload s /\ localStorage s2 = localStorage s
  /\ showPreview s2 = false /\ uploadSuccess s2 = true
  /\ alerts s2 = alerts s
  /\ (u_status u = 200 ->
      sessionId s2 = if Js.truthyOpt (u_session_id u) then u_session_id u
                     else sessionId s).
Proof.
  intros M F I s1 s2. subst s1 s2.
  assert (run (CommitClicked c) s
          = send (ResetSessionUpdate (header (c_sessionId c)) (c_datasetDescription c))
              (clearErrorTimeout (setErrorNotification None s))) as Shape.
  { unfold run, commit_begin. rewrite M.
    unfold actualFile.
    change (inputFile (clearErrorTimeout (setErrorNotification None s)))
      with (inputFile s).
    rewrite I, F. reflexivity. }
  rewrite Shape.
  unfold run, commit_afterUpdate, accepted, commit_tail.
  destruct (Nat.eqb_spec (u_status u) 200) as [E|N];
    repeat (split; [reflexivity|]); intros H; [reflexivity | now elim N].
Qed.

Lemma commit_default_dataset_witness :
  let c := mkClosure None (mkDescription "Housing" "Default housing data")
             (Some "sess1") true false in
  calls (run (CommitClicked c) freshPage)
  = [ResetSessionUpdate (Some "sess1") (mkDescription "Housing" "Default housing data")].
Proof.
  intros c.
  exact (proj1 (@commit_default_dataset c (mkUploadData 200 None None) freshPage
                  eq_refl eq_refl eq_refl)).
Defined.

(** The refusal of a stale handle looks at the modification time: an upload
    restored from a record with a modification time other than 0, in the
    range of a [long long], is not refused.  With no file in the file input
    and no session, the commit sends the upload request with the restored
    file, which has no bytes. *)
Theorem restored_upload_is_sent r c s :
  c_fileUpload c = Some (freshUpload (mockFile r) Success) ->
  inLongLong (rlastModified r) -> rlastModified r <> 0%Z ->
  missingMetadata c = false -> inputFile s = None ->
  Js.truthyOpt (c_sessionId c) = false ->
  let s' := run (CommitClicked c) s in
  fsize (mockFile r) = 0%N
  /\ alerts s' = alerts s
  /\ calls s' =
       (if isExcelFile c (mockFile r)
        then UploadExcel (mockFile r) (name (c_datasetDescription c))
               (description (c_datasetDescription c)) None
        else UploadDataframe (mockFile r) (name (c_datasetDescription c))
               (description (c_datasetDescription c)))
       :: calls s.
Proof.
  intros F Range N M I T s'. subst s'.
  assert (flastModified (mockFile r) <> 0%Z) as Dated
    by (rewrite (mockFile_exact r Range), (toLongLong_exact Range); exact N).
  clear N. cbn [mockFile flastModified] in Dated. rename Dated into N.
  unfold run, commit_begin. rewrite M, T.
  unfold actualFile, isMockFile.
  change (inputFile (clearErrorTimeout (setErrorNotification None s)))
    with (inputFile s).
  rewrite I, F. cbn [option_map file freshUpload mockFile fsize flastModified].
  apply Z.eqb_neq in N. rewrite N, andb_false_r.
  unfold sendFinalUpload, chosenSheet. rewrite F.
  cbn [selectedSheet freshUpload Js.truthyOpt].
  destruct (isExcelFile c (mockFile r)); repeat split.
Qed.

Lemma restored_upload_is_sent_witness :
  let r := mkRecord "sales.csv" "text/csv" 1700000000000 None None in
  let page := render (initial (Some (Rec r)) true) in
  let c := mkClosure (fileUpload page) (mkDescription "Sales" "Q1 sales") None true false in
  calls (run (CommitClicked c) page)
  = [UploadDataframe (mkFile "sales.csv" "text/csv" 0 1700000000000) "Sales" "Q1 sales"].
Proof.
  intros r page c.
  exact (proj2 (proj2 (@restored_upload_is_sent r c page eq_refl
                         ltac:(unfold inLongLong; cbn; lia)
                         ltac:(discriminate) eq_refl eq_refl eq_refl))).
Defined.

(** ** Answering the mismatch popup with "keep" *)

(** Keeping a custom dataset whose file has no bytes (a placeholder) cannot
    preview anything: the upload and the record are dropped, the popup
    closes, the flag is cleared and no request is sent.  With the file input
    on the page it is emptied and asked, 100 ms later, to open; without it
    the details dialog opens with the name of the placeholder and a prompt
    for a description. *)
Theorem keep_placeholder_asks_for_file c fu rReset rUpload rPreview rFetch s :
  c_fileUpload c = Some fu -> fsize (file fu) = 0%N ->
  let s' := handleDatasetReset c true rReset rUpload rPreview rFetch s in
  fileUpload s' = None /\ localStorage s' = None /\ calls s' = calls s
  /\ datasetMismatch s' = false /\ showDatasetResetPopup s' = false
  /\ (fileInputRef s <> None ->
      inputFile s' = None
      /\ timers s' = mkTimer (nextTimer s) 100 ClickFileInput :: timers s
      /\ showPreview s' = showPreview s)
  /\ (fileInputRef s = None ->
      showPreview s' = true
      /\ datasetDescription s' =
           mkDescription (Js.replaceFirst ".csv" "" (fname (file fu)))
             "Please provide a description for your dataset"
      /\ timers s' = timers s).
Proof.
  intros F Z s'. subst s'.
  assert (handleDatasetReset c true rReset rUpload rPreview rFetch s
          = handleDatasetReset_begin c true s) as ->.
  { unfold handleDatasetReset, keptRealFile. rewrite F, Z. reflexivity. }
  unfold handleDatasetReset_begin. rewrite F, Z.
  change (fileInputRef (removeItem (setFileUpload None s))) with (fileInputRef s).
  destruct (fileInputRef s) as [held|] eqn:R.
  - do 5 (split; [reflexivity|]). split; intros H; [|discriminate H].
    split; [|split; reflexivity].
    cbn [N.eqb]. unfold inputFile.
    change (fileInputRef (setTimeout ClickFileInput 100
              (closeResetPopup (clearFileInput (removeItem (setFileUpload None s))))))
      with (match fileInputRef s with
            | Some _ => Some (@None File)
            | None => None
            end).
    now rewrite R.
  - do 5 (split; [reflexivity|]). split; intros H; [now elim H|].
    repeat split.
Qed.

Lemma keep_placeholder_asks_for_file_witness :
  let page := render (initial (Some (Rec (mkRecord "sales.csv" "text/csv" 1700000000000
                                            None None))) true) in
  let s' := handleDatasetReset (closureOf page) true (Ok tt) (Err networkError)
              (Err networkError) (Err networkError) page in
  option_map status (fileUpload page) = Some Success
  /\ fileUpload s' = None /\ localStorage s' = None /\ calls s' = [].
Proof.
  intros page s'. split; [reflexivity|].
  destruct (@keep_placeholder_asks_for_file (closureOf page)
              (freshUpload (mkFile "sales.csv" "text/csv" 0 1700000000000) Success)
              (Ok tt) (Err networkError) (Err networkError) (Err networkError) page
              eq_refl eq_refl) as (A & B & C & _).
  split; [exact A|]. split; [exact B | exact C].
Defined.

(** ** The two effects on the session id *)



(** ** Flattening the errors of the backend *)

Lemma orElse_blank a b : Js.orElse a b = "" -> b = "".
Proof.
  unfold Js.orElse, Js.truthy. destruct (a =? "")%string eqn:A; cbn [negb]; [easy|].
  intros E. apply String.eqb_neq in A. now elim A.
Qed.

(** The text shown for a failed request is blank in one case only.  For an
    Axios error that has a message of its own, [getErrorMessage] gives the
    empty string only when the answer has status 400 and carries a detail
    that is not a text and flattens to nothing, such as an empty validation
    list: the empty list is truthy, so none of the fallbacks is reached. *)
Theorem error_text_blank_only_for_empty_detail resp m :
  m <> "" -> getErrorMessage (AxiosError resp m) = "" ->
  exists r d, resp = Some r /\ httpStatus r = 400 /\ detail r = Some d
              /\ (forall t, d <> DetailString t) /\ formatDetail d = "".
Proof.
  intros M E. destruct resp as [r|]; [|now elim M]. cbn [getErrorMessage] in E.
  destruct (httpStatus r =? 413)%nat; [discriminate E|].
  destruct (httpStatus r =? 415)%nat; [discriminate E|].
  assert ((if Js.truthy (dataMessage r) then dataMessage r
           else if Js.truthy (dataError r) then dataError r else m) <> "") as Tail.
  { intros T. change (Js.orElse (dataMessage r) (Js.orElse (dataError r) m) = "") in T.
    now apply orElse_blank, orElse_blank in T. }
  destruct (httpStatus r =? 400)%nat eqn:S400; cbn [andb] in E; [|now elim Tail].
  destruct (detail r) as [d|] eqn:D; cbn [detailTruthy] in E; [|now elim Tail].
  destruct d as [t| | |];
    try (exists r; eexists; repeat split;
         [now apply Nat.eqb_eq | exact D | discriminate | exact E]).
  destruct (Js.truthy t) eqn:T; [|now elim Tail].
  cbn [formatDetail] in E. unfold Js.truthy in T. rewrite E in T. discriminate T.
Qed.

Lemma error_text_blank_only_for_empty_detail_witness :
  let r := mkErrorResponse 400 (Some (DetailList [])) "Validation failed" "" in
  getErrorMessage (AxiosError (Some r) "Request failed with status code 400") = ""
  /\ exists r' d, Some r = Some r' /\ httpStatus r' = 400 /\ detail r' = Some d
                  /\ (forall t, d <> DetailString t) /\ formatDetail d = "".
Proof.
  intros r. split; [reflexivity|].
  apply (@error_text_blank_only_for_empty_detail (Some r)
           "Request failed with status code 400");
    [discriminate | reflexivity].
Defined.

(** ** The message box *)

Import MessageBox.

Lemma sliceTo_length s : forall n, n <= String.length s ->
  String.length (sliceTo n s) = n.
Proof.
  induction s as [|a s IH]; intros [|n] L; cbn in *; try reflexivity; try lia.
  now rewrite IH by lia.
Qed.

Lemma sliceTo_app a b : sliceTo (String.length a) (a ++ b) = a.
Proof.
  induction a as [|x a IH]; cbn; [now destruct b | now rewrite IH].
Qed.

Lemma sliceFrom_app a b : sliceFrom (String.length a) (a ++ b) = b.
Proof.
  induction a as [|x a IH]; cbn; [now destruct b | exact IH].
Qed.

Lemma text_append_length a b : String.length (a ++ b) = String.length a + String.length b.
Proof. induction a as [|x a IH]; cbn; [reflexivity | now rewrite IH]. Qed.

Lemma text_append_assoc a b c : (a ++ b) ++ c = a ++ b ++ c.
Proof. induction a as [|x a IH]; cbn; [reflexivity | now rewrite IH]. Qed.

(** The last [c] of the text before the cursor is a [c] of the text. *)
Lemma lastIndexOf_before c s : forall cur i,
  lastIndexOf c (sliceTo cur s) = Some i ->
  S i <= String.length s /\ S i <= cur
  /\ sliceTo (S i) s = sliceTo i s ++ String c "".
Proof.
  induction s as [|a s IH]; intros [|cur] i; cbn; try discriminate.
  destruct (lastIndexOf c (sliceTo cur s)) as [j|] eqn:E.
  - intros [= <-]. destruct (IH _ _ E) as (L & C & P).
    repeat split; try lia. cbn. f_equal. exact P.
  - destruct (Ascii.eqb a c) eqn:A; [|discriminate]. intros [= <-].
    apply Ascii.eqb_eq in A. subst a. repeat split; lia.
Qed.

Lemma lastIndexOf_includes c s : forall cur,
  lastIndexOf c (sliceTo cur s) <> None -> includes c s = true.
Proof.
  induction s as [|a s IH]; intros [|cur]; cbn; try congruence.
  destruct (lastIndexOf c (sliceTo cur s)) eqn:E.
  - intros _. rewrite (IH cur); [apply orb_true_r | congruence].
  - destruct (Ascii.eqb a c); [reflexivity | congruence].
Qed.

(** Choosing an agent replaces what was typed between the last [@] before
    the cursor and the cursor by the name of the agent and a space.  The
    text up to that [@] and the text after the cursor are kept, and the
    caret that the timeout sets is right after the inserted space: the text
    before it ends with the [@], the name and the space, and the text after
    it is what was after the cursor.  [cursorPosition] itself is not
    updated. *)
Theorem agent_choice_splices agent b i :
  lastIndexOf "@" (sliceTo (cursorPosition b) (message b)) = Some i ->
  let b' := handleAgentSelect agent b in
  let after := sliceFrom (cursorPosition b) (message b) in
  message b' = sliceTo i (message b) ++ "@" ++ agent ++ " " ++ after
  /\ exists caret,
       pendingCaret b' = Some caret
       /\ sliceTo caret (message b') = sliceTo i (message b) ++ "@" ++ agent ++ " "
       /\ sliceFrom caret (message b') = after
  /\ cursorPosition b' = cursorPosition b.
Proof.
  intros E b' after. subst b'. unfold handleAgentSelect. rewrite E. cbn [message
    pendingCaret cursorPosition]. fold after.
  destruct (lastIndexOf_before _ _ _ E) as (L & _ & P).
  replace (i + 1) with (S i) by lia. rewrite P, text_append_assoc.
  change (String "@" "" ++ agent ++ " " ++ after) with ("@" ++ agent ++ " " ++ after).
  split; [reflexivity|].
  exists (i + String.length agent + 2).
  assert (i + String.length agent + 2
          = String.length (sliceTo i (message b) ++ "@" ++ agent ++ " ")) as ->.
  { rewrite !text_append_length, sliceTo_length by lia. cbn. lia. }
  split; [reflexivity|].
  replace (sliceTo i (message b) ++ "@" ++ agent ++ " " ++ after)
    with ((sliceTo i (message b) ++ "@" ++ agent ++ " ") ++ after).
  - split; [apply sliceTo_app | split; [apply sliceFrom_app | reflexivity]].
  - now rewrite !text_append_assoc.
Qed.

Lemma agent_choice_splices_witness :
  let b := mkBox "ask @pre about sales" 8 "" false true None in
  let b' := handleAgentSelect "preprocessing_agent" b in
  message b' = "ask @preprocessing_agent  about sales"
  /\ caretAfterTimeout b' = Some 25
  /\ sliceFrom 25 (message b') = " about sales".
Proof.
  intros b b'.
  destruct (@agent_choice_splices "preprocessing_agent" b 4 eq_refl)
    as (M & caret & C & _ & A & _).
  split; [exact M|]. split; [reflexivity|].
  injection C as <-. exact A.
Defined.

(** After every change of the text at most one suggestion list is shown,
    and the agents are suggested exactly when the text holds an [@]: a
    text that starts with [/] shows the commands only as long as it has no
    [@].  So whenever choosing an agent can change the text, the agents are
    the list on screen. *)
Theorem suggestions_after_typing value sel b :
  let b' := handleInputChange value sel b in
  agentSuggestionsVisible b' = includes "@" value
  /\ commandSuggestionsVisible b' = startsWith "/" value && negb (includes "@" value)
  /\ agentSuggestionsVisible b' && commandSuggestionsVisible b' = false
  /\ (lastIndexOf "@" (sliceTo (cursorPosition b') (message b')) <> None ->
      agentSuggestionsVisible b' = true /\ commandQuery b' = "").
Proof.
  intros b'. subst b'. unfold agentSuggestionsVisible, commandSuggestionsVisible,
    handleInputChange. cbn [message showCommandSuggestions cursorPosition commandQuery].
  split; [|split; [reflexivity|split]].
  - destruct (startsWith "/" value), (includes "@" value); reflexivity.
  - destruct (startsWith "/" value), (includes "@" value); reflexivity.
  - intros H. apply lastIndexOf_includes in H. rewrite H.
    now rewrite andb_false_r.
Qed.

Lemma suggestions_after_typing_witness :
  let b' := handleInputChange "/plot @pre" (Some 10) (mkBox "" 0 "" false true None) in
  agentSuggestionsVisible b' = true /\ commandSuggestionsVisible b' = false
  /\ commandQuery b' = "".
Proof.
  intros b'.
  destruct (suggestions_after_typing "/plot @pre" (Some 10)
              (mkBox "" 0 "" false true None)) as (_ & C & _ & H).
  destruct (H ltac:(vm_compute; discriminate)) as [A Q].
  split; [exact A|]. split; [exact C | exact Q].
Defined.

(** The text area is disabled exactly when its placeholder says why: the
    placeholder is the invitation to type if and only if the input is
    enabled. *)
Theorem placeholder_explains_disabled a :
  isInputDisabled a = negb (getPlaceholderText a =? "Type your message here...")%string.
Proof. destruct a as [[|] [|] [|]]; reflexivity. Qed.

